(** * Adaptive security policies: a shallow embedding of
      [app/security/policies.py] and the properties of its policy engine.

    Modelling conventions.
    - A Python [str] is a [string] whose characters are read as the code
      points 0..255 (Latin-1); [strip], [lower], [split], [repr] and string
      comparison are written out for that range.
    - A Python [bytes] value is a [list byte]; [None] is [option]'s [None].
    - A [set] of strings is a [gset string], a [dict] keyed by strings a
      [gmap]; the definitions dictionary, whose iteration order matters, is an
      association list.
    - Exceptions are values of [exn] carried by the [result] monad.
    - [os.environ] is an explicit argument; the clock and the 16 random bytes
      that [Fernet.encrypt] draws are explicit arguments of [encrypt].
    - The symmetric cipher behind [cryptography.fernet.Fernet] is an
      interface ([FernetCrypto]); what is assumed of it is stated as a
      hypothesis of each theorem that needs it. *)

From Stdlib Require Import ZArith NArith Ascii String List.
From Stdlib.Strings Require Import Byte.
From stdpp Require Import base option list gmap sets strings sorting.

Local Open Scope string_scope.
Local Open Scope N_scope.
Local Open Scope list_scope.

(* ===================================================================== *)
(** ** Exceptions and the error monad *)

Inductive exn : Type :=
| ValueError (msg : string)
| AuthorizationError (msg : string)
| EncryptionError (msg : string).

Inductive result (A : Type) : Type :=
| Ok (a : A)
| Raise (e : exn).
Arguments Ok {A} a.
Arguments Raise {A} e.

#[global] Instance result_ret : MRet result := @Ok.
#[global] Instance result_bind : MBind result := fun A B f m =>
  match m with
  | Ok a => f a
  | Raise e => Raise e
  end.

Definition is_Ok {A} (r : result A) : Prop :=
  match r with Ok _ => True | Raise _ => False end.

(* ===================================================================== *)
(** ** Python string built-ins on code points 0..255 *)

Module Py.

Definition code (c : ascii) : N := N_of_ascii c.

(** [str.isspace] for one character: the code points Python treats as
    white space below 256. *)
Definition isspace (c : ascii) : bool :=
  let n := code c in
  ((9 <=? n) && (n <=? 13)) || ((28 <=? n) && (n <=? 32))
  || (n =? 133) || (n =? 160).

(** [str.lower] for one character: A-Z and the Latin-1 capitals
    (0xC0-0xDE except the multiplication sign 0xD7) move up by 32. *)
Definition lower_char (c : ascii) : ascii :=
  let n := code c in
  if ((65 <=? n) && (n <=? 90))
     || ((192 <=? n) && (n <=? 222) && negb (n =? 215))
  then ascii_of_N (n + 32) else c.

Fixpoint lower (s : string) : string :=
  match s with
  | EmptyString => EmptyString
  | String c s' => String (lower_char c) (lower s')
  end.

Fixpoint lstrip (s : string) : string :=
  match s with
  | EmptyString => EmptyString
  | String c s' => if isspace c then lstrip s' else s
  end.

Fixpoint rstrip (s : string) : string :=
  match s with
  | EmptyString => EmptyString
  | String c s' =>
      match rstrip s' with
      | EmptyString => if isspace c then EmptyString else String c EmptyString
      | r => String c r
      end
  end.

(** [s.strip()] *)
Definition strip (s : string) : string := rstrip (lstrip s).

(** [s.split(sep)] for a one-character separator: never returns the empty
    list, [split sep ""] is [[""]]. *)
Fixpoint split (sep : ascii) (s : string) : list string :=
  match s with
  | EmptyString => [EmptyString]
  | String c s' =>
      if Ascii.eqb c sep then EmptyString :: split sep s'
      else match split sep s' with
           | h :: t => String c h :: t
           | [] => [String c EmptyString]
           end
  end.

(** Truth value of a string: [bool(s)]. *)
Definition truthy (s : string) : bool :=
  match s with EmptyString => false | _ => true end.

(** [x or d] on an optional string: [None] and [""] are falsy. *)
Definition or_else (x : option string) (d : string) : string :=
  match x with
  | Some s => if truthy s then s else d
  | None => d
  end.

Fixpoint mem_char (c : ascii) (s : string) : bool :=
  match s with
  | EmptyString => false
  | String d s' => Ascii.eqb c d || mem_char c s'
  end.

Definition hex_digit (n : N) : ascii :=
  if n <? 10 then ascii_of_N (48 + n) else ascii_of_N (87 + n).

(** Printable code points below 256 ([str.isprintable]). *)
Definition isprintable (c : ascii) : bool :=
  let n := code c in
  ((32 <=? n) && (n <? 127)) || ((161 <=? n) && negb (n =? 173)).

Definition backslash : ascii := ascii_of_N 92.
Definition squote : ascii := ascii_of_N 39.
Definition dquote : ascii := ascii_of_N 34.

Definition repr_char (quote : ascii) (c : ascii) : string :=
  let n := code c in
  if Ascii.eqb c quote || (n =? 92) then String backslash (String c EmptyString)
  else if n =? 9 then String backslash "t"
  else if n =? 10 then String backslash "n"
  else if n =? 13 then String backslash "r"
  else if isprintable c then String c EmptyString
  else String backslash
         (String "x" (String (hex_digit (n / 16))
                        (String (hex_digit (n mod 16)) EmptyString))).

Fixpoint repr_body (quote : ascii) (s : string) : string :=
  match s with
  | EmptyString => EmptyString
  | String c s' => repr_char quote c +:+ repr_body quote s'
  end.

(** [repr(s)]: double quotes only when [s] holds a single quote and no
    double quote. *)
Definition repr_str (s : string) : string :=
  let quote : ascii :=
    if mem_char squote s && negb (mem_char dquote s) then dquote else squote in
  String quote (repr_body quote s +:+ String quote EmptyString).

Fixpoint join (sep : string) (l : list string) : string :=
  match l with
  | [] => EmptyString
  | [x] => x
  | x :: l' => x +:+ sep +:+ join sep l'
  end.

(** [repr] of a list of strings, as an f-string prints it. *)
Definition repr_list (l : list string) : string :=
  "[" +:+ join ", " (map repr_str l) +:+ "]".

(** [sorted(s)] for a set of strings: ascending code-point order. *)
Definition sorted (s : gset string) : list string :=
  merge_sort String.le (elements s).

(** [s.encode()]: UTF-8 of code points below 256. *)
Definition byte_of_code (n : N) : byte :=
  match Byte.of_N (n mod 256) with Some b => b | None => x00 end.

Fixpoint encode (s : string) : list byte :=
  match s with
  | EmptyString => []
  | String c s' =>
      let n := code c in
      if n <? 128 then byte_of_code n :: encode s'
      else byte_of_code (192 + n / 64) :: byte_of_code (128 + n mod 64)
             :: encode s'
  end.

End Py.

(* ===================================================================== *)
(** ** [base64.urlsafe_b64decode] of the standard library *)

Module Base64.

(** The decoding table of [binascii]: the value of a character of the
    standard alphabet, [None] for every other byte. *)
Definition table_a2b_base64 (n : N) : option N :=
  if (65 <=? n) && (n <=? 90) then Some (n - 65)
  else if (97 <=? n) && (n <=? 122) then Some (n - 71)
  else if (48 <=? n) && (n <=? 57) then Some (n + 4)
  else if n =? 43 then Some 62
  else if n =? 47 then Some 63
  else None.

(** [binascii.a2b_base64] in its default, non-strict mode: bytes outside
    the alphabet are skipped, a pad sequence that completes a quad ends the
    input, and an incomplete quad at the end is an error ([None]). *)
Fixpoint a2b_base64_loop (s : list byte) (quad_pos leftchar pads : N)
    (out : list byte) : option (list byte) :=
  match s with
  | [] => if quad_pos =? 0 then Some out else None
  | b :: rest =>
      let this_ch := Byte.to_N b in
      if this_ch =? 61 then
        if 2 <=? quad_pos then
          if 4 <=? quad_pos + (pads + 1) then Some out
          else a2b_base64_loop rest quad_pos leftchar (pads + 1) out
        else a2b_base64_loop rest quad_pos leftchar pads out
      else
        match table_a2b_base64 this_ch with
        | None => a2b_base64_loop rest quad_pos leftchar pads out
        | Some v =>
            if quad_pos =? 0 then
              a2b_base64_loop rest 1 v 0 out
            else if quad_pos =? 1 then
              a2b_base64_loop rest 2 (N.land v 15) 0
                (out ++ [Py.byte_of_code (N.lor (N.shiftl leftchar 2) (N.shiftr v 4))])
            else if quad_pos =? 2 then
              a2b_base64_loop rest 3 (N.land v 3) 0
                (out ++ [Py.byte_of_code (N.lor (N.shiftl leftchar 4) (N.shiftr v 2))])
            else
              a2b_base64_loop rest 0 0 0
                (out ++ [Py.byte_of_code (N.lor (N.shiftl leftchar 6) v)])
        end
  end.

Definition a2b_base64 (s : list byte) : option (list byte) :=
  a2b_base64_loop s 0 0 0 [].

(** [bytes.translate] with the URL-safe table: [-] becomes [+] and [_]
    becomes [/]. *)
Definition _urlsafe_decode_translation (b : byte) : byte :=
  let n := Byte.to_N b in
  if n =? 45 then Py.byte_of_code 43
  else if n =? 95 then Py.byte_of_code 47
  else b.

(** [urlsafe_b64decode] on a [bytes] argument. *)
Definition urlsafe_b64decode (s : list byte) : option (list byte) :=
  a2b_base64 (map _urlsafe_decode_translation s).

Fixpoint isascii (s : string) : bool :=
  match s with
  | EmptyString => true
  | String c s' => (Py.code c <? 128) && isascii s'
  end.

(** [urlsafe_b64decode] on a [str] argument: the text is first encoded
    as ASCII, which fails on any code point above 127. *)
Definition urlsafe_b64decode_str (s : string) : option (list byte) :=
  if isascii s then urlsafe_b64decode (Py.encode s) else None.

End Base64.

(* ===================================================================== *)
(** ** [cryptography.fernet.Fernet] *)

Module Fernet.

(** A [Fernet] object: the two halves of the decoded 32-byte key. *)
Record t : Type := mk {
  _signing_key : list byte;
  _encryption_key : list byte
}.

#[global] Instance byte_eq_dec : EqDecision byte := Byte.byte_eq_dec.

#[global] Instance eq_dec : EqDecision t.
Proof. solve_decision. Defined.

Definition key_error : exn :=
  ValueError "Fernet key must be 32 url-safe base64-encoded bytes.".

(** [Fernet(key)] *)
Definition new (key : list byte) : result t :=
  match Base64.urlsafe_b64decode key with
  | None => Raise key_error
  | Some k =>
      if (length k =? 32)%nat then
        Ok {| _signing_key := take 16 k; _encryption_key := drop 16 k |}
      else Raise key_error
  end.

(** A key object as the constructor builds it: two 16-byte halves. *)
Definition wf (f : t) : Prop :=
  length (_signing_key f) = 16%nat /\ length (_encryption_key f) = 16%nat.

End Fernet.

(** The cipher itself (AES-CBC under HMAC-SHA256) is left abstract.
    [fernet_encrypt f now iv data] is [Fernet.encrypt] when the clock reads
    [now] and the random source yields [iv]; [fernet_decrypt f token] is
    [Fernet.decrypt] with no time-to-live, [None] standing for
    [InvalidToken]. *)
Class FernetCrypto : Type := {
  fernet_encrypt : Fernet.t -> N -> list byte -> list byte -> list byte;
  fernet_decrypt : Fernet.t -> list byte -> option (list byte)
}.

(** A token decrypts, under the key that produced it, to the payload. *)
Definition fernet_round_trip (C : FernetCrypto) : Prop :=
  forall f now iv data, Fernet.wf f ->
    fernet_decrypt f (fernet_encrypt f now iv data) = Some data.

(** A token is rejected under a key whose signing half differs from the
    one that produced it (the HMAC check fails). *)
Definition fernet_key_binding (C : FernetCrypto) : Prop :=
  forall f1 f2 now iv data, Fernet.wf f1 -> Fernet.wf f2 ->
    Fernet._signing_key f1 <> Fernet._signing_key f2 ->
    fernet_decrypt f2 (fernet_encrypt f1 now iv data) = None.

(* ===================================================================== *)
(** ** The policy module *)

Definition POLICY_VERSION : string := "2024.1".

(** A collection of principal roles as callers pass it: absent, or a
    sequence whose items may themselves be [None]. *)
Definition principal_roles_t : Type := option (list (option string)).

(** One turn of the loop of [_normalize_roles]. *)
Definition add_role (roles : gset string) (role : option string) : gset string :=
  match role with
  | None => roles
  | Some r =>
      let text := Py.lower (Py.strip r) in
      if Py.truthy text then {[ text ]} ∪ roles else roles
  end.

Definition _normalize_roles (principal_roles : principal_roles_t) : gset string :=
  match principal_roles with
  | None => {[ "system" ]}
  | Some l =>
      let roles := foldl add_role ∅ l in
      if decide (roles = ∅) then {[ "system" ]} else roles
  end.

Definition _normalize_location (location : string) : string :=
  Py.lower (Py.strip location).

Definition _coerce_fernet_key (raw_key : string) (location : string)
    : result (list byte) :=
  if negb (Py.truthy raw_key) then
    Raise (ValueError ("missing encryption key for location '" +:+ location +:+ "'"))
  else
    let raw_key := Py.strip raw_key in
    match Base64.urlsafe_b64decode_str raw_key with
    | None =>
        Raise (ValueError ("invalid base64 key for location '" +:+ location +:+ "'"))
    | Some decoded =>
        if negb (length decoded =? 32)%nat then
          Raise (ValueError ("incorrect key length for location '" +:+ location +:+ "'"))
        else Ok (Py.encode raw_key)
    end.

(** The dictionary [snapshot] returns. *)
Module Snapshot.
Record encryption_t : Type := mk_encryption {
  algorithm : string;
  key_id : string;
  key_source : string
}.
Record access_control_t : Type := mk_access_control {
  allowed_roles : list string
}.
Record t : Type := mk {
  location : string;
  policy_version : string;
  encryption : encryption_t;
  access_control : access_control_t
}.
End Snapshot.

Module _LocationPolicy.

Record t : Type := mk {
  name : string;
  key_id : string;
  fernet : Fernet.t;
  allowed_roles : gset string;
  key_source : string
}.

Definition authorize (self : t) (principal_roles : principal_roles_t)
    : result unit :=
  let roles := _normalize_roles principal_roles in
  if decide (roles ∩ allowed_roles self = ∅) then
    Raise (AuthorizationError
             ("principal lacks roles for " +:+ name self
              +:+ "; required one of "
              +:+ Py.repr_list (Py.sorted (allowed_roles self))))
  else Ok tt.

Definition snapshot (self : t) : Snapshot.t :=
  {| Snapshot.location := name self;
     Snapshot.policy_version := POLICY_VERSION;
     Snapshot.encryption :=
       {| Snapshot.algorithm := "fernet";
          Snapshot.key_id := key_id self;
          Snapshot.key_source := key_source self |};
     Snapshot.access_control :=
       {| Snapshot.allowed_roles := Py.sorted (allowed_roles self) |} |}.

End _LocationPolicy.

(** One entry of the definitions dictionary; every key may be missing. *)
Module Config.
Record t : Type := mk {
  env_key : option string;
  env_roles : option string;
  default_key : option string;
  default_roles : option (gset string);
  key_id : option string
}.
End Config.

Definition definitions_t : Type := list (string * Config.t).

Definition _DEFAULT_POLICY_DEFINITIONS : definitions_t :=
  [ ("s3",
     {| Config.env_key := Some "S3_ENCRYPTION_KEY";
        Config.env_roles := Some "S3_ALLOWED_ROLES";
        Config.default_key := Some "L49jTE3mqXUgmwOvV2EaXiiZkJtQXoaKKKzlqxMFhkI=";
        Config.default_roles := Some {[ "analytics"; "engineering"; "system" ]};
        Config.key_id := Some "s3-default" |});
    ("azure",
     {| Config.env_key := Some "AZURE_ENCRYPTION_KEY";
        Config.env_roles := Some "AZURE_ALLOWED_ROLES";
        Config.default_key := Some "0-BIKqiBt__oUvQx41iC89SdJpAis6ruT5mHWZn5d50=";
        Config.default_roles := Some {[ "operations"; "engineering"; "system" ]};
        Config.key_id := Some "azure-default" |});
    ("gcs",
     {| Config.env_key := Some "GCS_ENCRYPTION_KEY";
        Config.env_roles := Some "GCS_ALLOWED_ROLES";
        Config.default_key := Some "FNLdlBuOKy23fIzUTBSHXjhJsfIgSkikUSU3mWk50oo=";
        Config.default_roles := Some {[ "compliance"; "analytics"; "system" ]};
        Config.key_id := Some "gcs-default" |}) ].

(** [os.environ] *)
Definition environ_t : Type := gmap string string.

(** [os.getenv(name)] and its truth value as the code tests it. *)
Definition getenv (env : environ_t) (var : string) : option string := env !! var.

Definition getenv_truthy (env : environ_t) (var : string) : bool :=
  match getenv env var with
  | Some v => Py.truthy v
  | None => false
  end.

(** The roles parsed from the role-override variable of a definition:
    the argument the code hands to [_normalize_roles]. *)
Definition env_roles_input (env : environ_t) (roles_env_var : string)
    : principal_roles_t :=
  if Py.truthy roles_env_var then
    Some (map Some (Py.split "," (default "" (getenv env roles_env_var))))
  else None.

(** The body of the loop of [_load_policies] for one definition. *)
Definition load_policy (env : environ_t) (location : string) (config : Config.t)
    : result (string * _LocationPolicy.t) :=
  let key := _normalize_location location in
  let env_var := Py.or_else (Config.env_key config) "" in
  let default_key := Py.or_else (Config.default_key config) "" in
  let raw_key := Py.or_else (getenv env env_var) default_key in
  let key_source :=
    if getenv_truthy env env_var then "env:" +:+ env_var else "default" in
  fernet_key ← _coerce_fernet_key raw_key location;
  fernet ← Fernet.new fernet_key;
  let base_roles : gset string := default ∅ (Config.default_roles config) in
  let roles_env_var := Py.or_else (Config.env_roles config) "" in
  let env_roles := _normalize_roles (env_roles_input env roles_env_var) in
  let allowed_roles := base_roles ∪ env_roles ∪ {[ "system" ]} in
  let key_id := Py.or_else (Config.key_id config) (key +:+ "-default") in
  mret (key,
        {| _LocationPolicy.name := key;
           _LocationPolicy.key_id := key_id;
           _LocationPolicy.fernet := fernet;
           _LocationPolicy.allowed_roles := allowed_roles;
           _LocationPolicy.key_source := key_source |}).

Module AdaptiveSecurityManager.

Record t : Type := mk {
  _definitions : definitions_t;
  _policies : gmap string _LocationPolicy.t
}.

(** [_load_policies]: the definitions are visited in dictionary order,
    each policy is stored under its normalized key (a later definition
    with the same normalized key replaces an earlier one), and the first
    exception ends the loop. *)
Fixpoint _load_policies (env : environ_t) (definitions : definitions_t)
    (policies : gmap string _LocationPolicy.t)
    : result (gmap string _LocationPolicy.t) :=
  match definitions with
  | [] => Ok policies
  | (location, config) :: rest =>
      '(key, policy) ← load_policy env location config;
      _load_policies env rest (<[ key := policy ]> policies)
  end.

(** [definitions or dict(_DEFAULT_POLICY_DEFINITIONS)] *)
Definition definitions_or_default (definitions : option definitions_t)
    : definitions_t :=
  match definitions with
  | None | Some [] => _DEFAULT_POLICY_DEFINITIONS
  | Some d => d
  end.

(** The constructor: it returns a manager only when every definition
    loads. *)
Definition __init__ (env : environ_t) (definitions : option definitions_t)
    : result t :=
  let defs := definitions_or_default definitions in
  policies ← _load_policies env defs ∅;
  mret {| _definitions := defs; _policies := policies |}.

Definition _policy_for (self : t) (location : string)
    : result _LocationPolicy.t :=
  let key := _normalize_location location in
  match _policies self !! key with
  | None =>
      Raise (ValueError ("no security policy configured for location '"
                         +:+ location +:+ "'"))
  | Some policy => Ok policy
  end.

Definition describe_policy (self : t) (location : string)
    : result Snapshot.t :=
  policy ← _policy_for self location;
  mret (_LocationPolicy.snapshot policy).

Definition allowed_roles (self : t) (location : string)
    : result (list string) :=
  policy ← _policy_for self location;
  mret (Py.sorted (_LocationPolicy.allowed_roles policy)).

Section Crypto.
Context {C : FernetCrypto}.

(** [encrypt]; [now] and [iv] are the clock reading and the random
    bytes that [Fernet.encrypt] draws. *)
Definition encrypt (self : t) (location : string) (data : option (list byte))
    (principal_roles : principal_roles_t) (now : N) (iv : list byte)
    : result (option (list byte)) :=
  match data with
  | None => Ok None
  | Some data =>
      policy ← _policy_for self location;
      _ ← _LocationPolicy.authorize policy principal_roles;
      mret (Some (fernet_encrypt (_LocationPolicy.fernet policy) now iv data))
  end.

Definition decrypt (self : t) (location : string) (data : option (list byte))
    (principal_roles : principal_roles_t)
    : result (option (list byte)) :=
  match data with
  | None => Ok None
  | Some data =>
      policy ← _policy_for self location;
      _ ← _LocationPolicy.authorize policy principal_roles;
      match fernet_decrypt (_LocationPolicy.fernet policy) data with
      | Some plaintext => Ok (Some plaintext)
      | None =>
          Raise (EncryptionError ("failed to decrypt payload from "
                                  +:+ _LocationPolicy.name policy))
      end
  end.
End Crypto.

End AdaptiveSecurityManager.

(** [security_manager = AdaptiveSecurityManager()], built in environment
    [env]. *)
Definition security_manager (env : environ_t) : result AdaptiveSecurityManager.t :=
  AdaptiveSecurityManager.__init__ env None.

(* ===================================================================== *)
(** ** A reference cipher

    An idealised instance of [FernetCrypto], used to run the model on
    concrete inputs: the token carries the key it was made under, the
    payload follows, and decryption checks the key before returning the
    payload. *)

Module IdealFernet.

Definition key (f : Fernet.t) : list byte :=
  Fernet._signing_key f ++ Fernet._encryption_key f.

Definition encrypt (f : Fernet.t) (now : N) (iv : list byte) (data : list byte)
    : list byte :=
  key f ++ data.

Definition decrypt (f : Fernet.t) (token : list byte) : option (list byte) :=
  if decide (take 32 token = key f) then Some (drop 32 token) else None.

Definition crypto : FernetCrypto :=
  {| fernet_encrypt := encrypt; fernet_decrypt := decrypt |}.

End IdealFernet.

(* ===================================================================== *)
(** ** Vocabulary of the statements *)

(** The key text a definition resolves to: the override variable when it
    is set to a non-empty value, the built-in default otherwise. *)
Definition resolved_key (env : environ_t) (config : Config.t) : string :=
  Py.or_else (getenv env (Py.or_else (Config.env_key config) ""))
             (Py.or_else (Config.default_key config) "").

(** What is wrong with a key text, if anything: the three ways
    [_coerce_fernet_key] rejects it. *)
Definition key_fault (raw_key : string) : option string :=
  if negb (Py.truthy raw_key) then Some "missing encryption key"
  else match Base64.urlsafe_b64decode_str (Py.strip raw_key) with
       | None => Some "invalid base64 key"
       | Some decoded =>
           if (length decoded =? 32)%nat then None
           else Some "incorrect key length"
       end.

Definition faulty (env : environ_t) (d : string * Config.t) : Prop :=
  is_Some (key_fault (resolved_key env d.2)).

#[global] Instance faulty_dec env d : Decision (faulty env d).
Proof. unfold faulty. apply _. Defined.

(** Role normalization in the words of the specification: every role
    trimmed and lowercased, the empty ones discarded. *)
Definition clean_roles (l : list (option string)) : gset string :=
  list_to_set
    (filter (fun r => r <> "")
       (map (fun x => Py.lower (Py.strip x)) (omap id l))).

(** The roles a definition adds through its role-override variable: the
    entries of the comma-separated value, cleaned. *)
Definition parsed_env_roles (env : environ_t) (config : Config.t) : gset string :=
  match Py.or_else (Config.env_roles config) "" with
  | EmptyString => ∅
  | var => clean_roles (map Some (Py.split "," (default "" (getenv env var))))
  end.

(** The authorized roles of a definition, in the words of the
    specification. *)
Definition spec_allowed_roles (env : environ_t) (config : Config.t) : gset string :=
  default ∅ (Config.default_roles config) ∪ parsed_env_roles env config
  ∪ {[ "system" ]}.

(** The message of the lookup error raised for [location]. *)
Definition lookup_error (location : string) : exn :=
  ValueError ("no security policy configured for location '" +:+ location +:+ "'").

(** The message of the authorization error of a policy. *)
Definition authorization_error (name : string) (allowed : gset string) : exn :=
  AuthorizationError
    ("principal lacks roles for " +:+ name +:+ "; required one of "
     +:+ Py.repr_list (Py.sorted allowed)).

(** Two definitions that agree on everything but the built-in key
    text. *)
Definition same_but_key (d1 d2 : string * Config.t) : Prop :=
  d1.1 = d2.1
  /\ Config.env_key d1.2 = Config.env_key d2.2
  /\ Config.env_roles d1.2 = Config.env_roles d2.2
  /\ Config.default_roles d1.2 = Config.default_roles d2.2
  /\ Config.key_id d1.2 = Config.key_id d2.2.

(** The policy that [load_policy] builds around the key object [f]. *)
Definition built_policy (env : environ_t) (location : string) (config : Config.t)
    (f : Fernet.t) : _LocationPolicy.t :=
  let key := _normalize_location location in
  let env_var := Py.or_else (Config.env_key config) "" in
  {| _LocationPolicy.name := key;
     _LocationPolicy.key_id :=
       Py.or_else (Config.key_id config) (key +:+ "-default");
     _LocationPolicy.fernet := f;
     _LocationPolicy.allowed_roles :=
       default ∅ (Config.default_roles config)
       ∪ _normalize_roles
           (env_roles_input env (Py.or_else (Config.env_roles config) ""))
       ∪ {[ "system" ]};
     _LocationPolicy.key_source :=
       if getenv_truthy env env_var then "env:" +:+ env_var else "default" |}.

Definition config_error (reason location : string) : exn :=
  ValueError (reason +:+ " for location '" +:+ location +:+ "'").

(** A key text the provisioner rejects, as the specification lists the
    cases: empty, not base64, or not 32 bytes once decoded. *)
Definition key_rejected (raw_key : string) : Prop :=
  raw_key = ""
  \/ Base64.urlsafe_b64decode_str (Py.strip raw_key) = None
  \/ exists decoded,
       Base64.urlsafe_b64decode_str (Py.strip raw_key) = Some decoded
       /\ length decoded <> 32%nat.

Definition config_reasons : list string :=
  [ "missing encryption key"; "invalid base64 key"; "incorrect key length" ].

(** Two policies that agree on everything a snapshot shows. *)
Definition same_public (p1 p2 : _LocationPolicy.t) : Prop :=
  _LocationPolicy.name p1 = _LocationPolicy.name p2
  /\ _LocationPolicy.key_id p1 = _LocationPolicy.key_id p2
  /\ _LocationPolicy.key_source p1 = _LocationPolicy.key_source p2
  /\ _LocationPolicy.allowed_roles p1 = _LocationPolicy.allowed_roles p2.

(** The policy [p] with its key object replaced by [f]. *)
Definition with_fernet (p : _LocationPolicy.t) (f : Fernet.t) : _LocationPolicy.t :=
  {| _LocationPolicy.name := _LocationPolicy.name p;
     _LocationPolicy.key_id := _LocationPolicy.key_id p;
     _LocationPolicy.fernet := f;
     _LocationPolicy.allowed_roles := _LocationPolicy.allowed_roles p;
     _LocationPolicy.key_source := _LocationPolicy.key_source p |}.

(* ===================================================================== *)
(** ** Concrete inputs *)

Definition hello : list byte := Py.encode "hello".

Definition iv0 : list byte := replicate 16 x00.

(** An environment that gives azure the key s3 has by default: the two
    locations then share one key. *)
Definition shared_key_env : environ_t :=
  {[ "AZURE_ENCRYPTION_KEY" := "L49jTE3mqXUgmwOvV2EaXiiZkJtQXoaKKKzlqxMFhkI=" ]}.

(** The default definitions with the s3 key replaced by another valid
    key. *)
Definition rekeyed_definitions : definitions_t :=
  [ ("s3",
     {| Config.env_key := Some "S3_ENCRYPTION_KEY";
        Config.env_roles := Some "S3_ALLOWED_ROLES";
        Config.default_key := Some "FNLdlBuOKy23fIzUTBSHXjhJsfIgSkikUSU3mWk50oo=";
        Config.default_roles := Some {[ "analytics"; "engineering"; "system" ]};
        Config.key_id := Some "s3-default" |});
    ("azure",
     {| Config.env_key := Some "AZURE_ENCRYPTION_KEY";
        Config.env_roles := Some "AZURE_ALLOWED_ROLES";
        Config.default_key := Some "0-BIKqiBt__oUvQx41iC89SdJpAis6ruT5mHWZn5d50=";
        Config.default_roles := Some {[ "operations"; "engineering"; "system" ]};
        Config.key_id := Some "azure-default" |});
    ("gcs",
     {| Config.env_key := Some "GCS_ENCRYPTION_KEY";
        Config.env_roles := Some "GCS_ALLOWED_ROLES";
        Config.default_key := Some "FNLdlBuOKy23fIzUTBSHXjhJsfIgSkikUSU3mWk50oo=";
        Config.default_roles := Some {[ "compliance"; "analytics"; "system" ]};
        Config.key_id := Some "gcs-default" |}) ].

(** An environment that adds two roles to azure, written carelessly. *)
Definition roles_env : environ_t :=
  {[ "AZURE_ALLOWED_ROLES" := " Auditor ,, OPS," ]}.

(** An environment whose s3 key override is one character short. *)
Definition short_key_env : environ_t :=
  {[ "S3_ENCRYPTION_KEY" := "L49jTE3mqXUgmwOvV2EaXiiZkJtQXoaKKKzlqxMFhk=" ]}.

Definition empty_manager : AdaptiveSecurityManager.t :=
  {| AdaptiveSecurityManager._definitions := [];
     AdaptiveSecurityManager._policies := ∅ |}.

Definition manager_of (r : result AdaptiveSecurityManager.t)
    : AdaptiveSecurityManager.t :=
  match r with Ok m => m | Raise _ => empty_manager end.

Definition policy_of (m : AdaptiveSecurityManager.t) (key : string)
    : _LocationPolicy.t :=
  default
    {| _LocationPolicy.name := ""; _LocationPolicy.key_id := "";
       _LocationPolicy.fernet := Fernet.mk [] [];
       _LocationPolicy.allowed_roles := ∅;
       _LocationPolicy.key_source := "" |}
    (AdaptiveSecurityManager._policies m !! key).

(** The manager that the default definitions build in an empty
    environment. *)
Definition default_manager : AdaptiveSecurityManager.t :=
  manager_of (security_manager ∅).

(** The manager built from the default definitions in [shared_key_env]. *)
Definition shared_key_manager : AdaptiveSecurityManager.t :=
  manager_of (security_manager shared_key_env).

Definition roles_env_manager : AdaptiveSecurityManager.t :=
  manager_of (security_manager roles_env).

Definition rekeyed_manager : AdaptiveSecurityManager.t :=
  manager_of (AdaptiveSecurityManager.__init__ ∅ (Some rekeyed_definitions)).

(* ===================================================================== *)
(** ** Further vocabulary *)

(** A string that does not begin with white space. *)
Definition headed (s : string) : Prop :=
  match s with
  | EmptyString => True
  | String c _ => Py.isspace c = false
  end.

(** The normalized names of a list of definitions. *)
Definition normalized_names (defs : definitions_t) : list string :=
  (fun d => _normalize_location d.1) <$> defs.

(* ===================================================================== *)
(** ** The mover ([app/orchestrator/mover.py])

    The storage clients are outside the code at hand: their methods are an
    interface acting on an abstract state of the stores, and each call may
    raise.  The files that [put_seed_objects] finds are an argument. *)

Module Mover.

(** What a caller of the mover can see raised: the exceptions of the
    policy module and plain [ValueError]s, [FileNotFoundError], and whatever
    a storage client raises. *)
Inductive py_exn : Type :=
| Exn (e : exn)
| FileNotFoundError (msg : string)
| ClientError (msg : string).

Inductive outcome (A : Type) : Type :=
| Done (a : A)
| Fail (e : py_exn).
Arguments Done {A} a.
Arguments Fail {A} e.

(** The methods of [S3Client], [AzureClient] and [GCSClient] that the
    mover calls, on the state [world] of the three stores. *)
Class StorageClients : Type := {
  world : Type;
  s3_get_object : string -> string -> world -> outcome (option (list byte)) * world;
  az_get_blob : string -> string -> world -> outcome (option (list byte)) * world;
  gcs_get_object : string -> string -> world -> outcome (option (list byte)) * world;
  s3_put_object : string -> string -> option (list byte) -> world -> outcome unit * world;
  az_put_blob : string -> string -> option (list byte) -> world -> outcome unit * world;
  gcs_put_object : string -> string -> option (list byte) -> world -> outcome unit * world;
  s3_delete_object : string -> string -> world -> outcome unit * world;
  az_delete_blob : string -> string -> world -> outcome unit * world;
  gcs_delete_object : string -> string -> world -> outcome unit * world
}.

(** A computation on the stores: it ends with a value or an exception,
    and leaves the stores in a new state either way. *)
Definition io `{StorageClients} (A : Type) : Type := world -> outcome A * world.

Definition ret `{StorageClients} {A} (a : A) : io A := fun w => (Done a, w).

Definition raise `{StorageClients} {A} (e : py_exn) : io A := fun w => (Fail e, w).

Definition bind `{StorageClients} {A B} (c : io A) (k : A -> io B) : io B :=
  fun w =>
    match c w with
    | (Done a, w') => k a w'
    | (Fail e, w') => (Fail e, w')
    end.

(** A call into the policy module: it touches no store. *)
Definition lift `{StorageClients} {A} (r : result A) : io A :=
  match r with
  | Ok a => ret a
  | Raise e => raise (Exn e)
  end.

(** [os.getenv(name, fallback)]: the fallback is used only when the
    variable is unset. *)
Definition getenv_default (env : environ_t) (var fallback : string) : string :=
  default fallback (getenv env var).

Definition S3_BUCKET (env : environ_t) : string :=
  getenv_default env "S3_BUCKET" "netapp-bucket".

Definition GCS_BUCKET (env : environ_t) : string :=
  getenv_default env "GCS_BUCKET" "netapp-gcs".

(** The location names the mover knows, compared as they are written. *)
Definition locations : list string := [ "s3"; "azure"; "gcs" ].

Section Program.
Context `{SC : StorageClients} {C : FernetCrypto}.

(** [put_seed_objects]: [files] are the name and content of each file the
    glob yields, in the order it yields them, each with the clock reading
    and random bytes drawn while it is encrypted. *)
Fixpoint put_seed_objects (env : environ_t) (m : AdaptiveSecurityManager.t)
    (files : list (string * list byte * (N * list byte))) : io unit :=
  match files with
  | [] => ret tt
  | (key, body, (now, iv)) :: rest =>
      bind (lift (AdaptiveSecurityManager.encrypt m "s3" (Some body)
                    (Some [Some "system"]) now iv))
        (fun encrypted =>
           bind (s3_put_object (S3_BUCKET env) key encrypted)
             (fun _ => put_seed_objects env m rest))
  end.

(** The first chain of comparisons of [move_object]: read the object. *)
Definition get_source (env : environ_t) (obj_key src : string)
    : io (option (list byte)) :=
  if String.eqb src "s3" then s3_get_object (S3_BUCKET env) obj_key
  else if String.eqb src "azure" then az_get_blob "netapp-blob" obj_key
  else if String.eqb src "gcs" then gcs_get_object (GCS_BUCKET env) obj_key
  else raise (Exn (ValueError "unknown src")).

(** The second chain: write the object. *)
Definition put_destination (env : environ_t) (obj_key dst : string)
    (encrypted : option (list byte)) : io unit :=
  if String.eqb dst "s3" then s3_put_object (S3_BUCKET env) obj_key encrypted
  else if String.eqb dst "azure" then az_put_blob "netapp-blob" obj_key encrypted
  else if String.eqb dst "gcs" then gcs_put_object (GCS_BUCKET env) obj_key encrypted
  else raise (Exn (ValueError "unknown dst")).

(** The third chain, which has no final [else]: delete the source. *)
Definition delete_source (env : environ_t) (obj_key src : string) : io unit :=
  if String.eqb src "s3" then s3_delete_object (S3_BUCKET env) obj_key
  else if String.eqb src "azure" then az_delete_blob "netapp-blob" obj_key
  else if String.eqb src "gcs" then gcs_delete_object (GCS_BUCKET env) obj_key
  else ret tt.

(** [principal_roles if principal_roles is not None else {"system"}] *)
Definition roles_or_system (principal_roles : principal_roles_t)
    : principal_roles_t :=
  match principal_roles with
  | Some roles => Some roles
  | None => Some [Some "system"]
  end.

(** [move_object], with the manager [m] standing for the module's
    [security_manager]. *)
Definition move_object (env : environ_t) (m : AdaptiveSecurityManager.t)
    (obj_key src dst : string) (principal_roles : principal_roles_t)
    (now : N) (iv : list byte) : io unit :=
  bind (get_source env obj_key src)
    (fun data =>
       match data with
       | None =>
           raise (FileNotFoundError (obj_key +:+ " not found in " +:+ src))
       | Some _ =>
           let roles := roles_or_system principal_roles in
           bind (lift (AdaptiveSecurityManager.decrypt m src data roles))
             (fun plaintext =>
                bind (lift (AdaptiveSecurityManager.encrypt m dst plaintext
                              roles now iv))
                  (fun encrypted =>
                     bind (put_destination env obj_key dst encrypted)
                       (fun _ => delete_source env obj_key src)))
       end).


End Program.

End Mover.

(** Reference storage clients: the three stores in memory, keyed by
    service, bucket and object name.  Writing an absent payload is an
    error. *)
Module MemoryClients.

Definition store : Type := gmap (string * (string * string)) (list byte).

Definition get (service bucket key : string) (w : store)
    : Mover.outcome (option (list byte)) * store :=
  (Mover.Done (w !! (service, (bucket, key))), w).

Definition put (service bucket key : string) (data : option (list byte))
    (w : store) : Mover.outcome unit * store :=
  match data with
  | Some d => (Mover.Done tt, <[ (service, (bucket, key)) := d ]> w)
  | None => (Mover.Fail (Mover.ClientError "no payload"), w)
  end.

Definition delete (service bucket key : string) (w : store)
    : Mover.outcome unit * store :=
  (Mover.Done tt, base.delete (service, (bucket, key)) w).

Definition clients : Mover.StorageClients :=
  {| Mover.world := store;
     Mover.s3_get_object := get "s3";
     Mover.az_get_blob := get "azure";
     Mover.gcs_get_object := get "gcs";
     Mover.s3_put_object := put "s3";
     Mover.az_put_blob := put "azure";
     Mover.gcs_put_object := put "gcs";
     Mover.s3_delete_object := delete "s3";
     Mover.az_delete_blob := delete "azure";
     Mover.gcs_delete_object := delete "gcs" |}.

(** The s3 store after seeding one file under the default manager. *)
Definition seeded : store :=
  (Mover.put_seed_objects (SC := clients) (C := IdealFernet.crypto) ∅
     default_manager [ ("a.txt", hello, (1700000000, iv0)) ] ∅).2.


Definition moved_onto_itself : store :=
  (Mover.move_object (SC := clients) (C := IdealFernet.crypto) ∅
     default_manager "a.txt" "s3" "s3" None 1700000001 iv0 seeded).2.

End MemoryClients.

(** The allowed roles a principal can actually present: those that are
    non-empty and already trimmed and lowercased. *)
Definition live_roles (allowed : gset string) : gset string :=
  filter (fun a => a <> "" /\ Py.lower (Py.strip a) = a) allowed.

(** Two environments that agree on the variables a definition names: its
    key override and, when it names one, its role override. *)
Definition env_agree (env env' : environ_t) (d : string * Config.t) : Prop :=
  getenv env (Py.or_else (Config.env_key d.2) "")
  = getenv env' (Py.or_else (Config.env_key d.2) "")
  /\ (Py.or_else (Config.env_roles d.2) "" <> "" ->
      getenv env (Py.or_else (Config.env_roles d.2) "")
      = getenv env' (Py.or_else (Config.env_roles d.2) "")).

(** A definition whose default role is written with a capital. *)
Definition capital_definitions : definitions_t :=
  [ ("vault",
     {| Config.env_key := None; Config.env_roles := None;
        Config.default_key := Some "L49jTE3mqXUgmwOvV2EaXiiZkJtQXoaKKKzlqxMFhkI=";
        Config.default_roles := Some {[ "Admin" ]};
        Config.key_id := None |}) ].

Definition capital_manager : AdaptiveSecurityManager.t :=
  manager_of (AdaptiveSecurityManager.__init__ ∅ (Some capital_definitions)).

(** An environment with variables the definitions do not name. *)
Definition busy_env : environ_t :=
  {[ "HOME" := "/root"; "S3_BUCKET" := "seeds" ]}.

(* ===================================================================== *)
(** ** Python built-ins: facts used below *)

Section PyFacts.

Lemma sorted_Permutation (s : gset string) : Py.sorted s ≡ₚ elements s.
Proof. apply merge_sort_Permutation. Qed.

Lemma elem_of_sorted (s : gset string) (x : string) : x ∈ Py.sorted s <-> x ∈ s.
Proof. rewrite sorted_Permutation. apply elem_of_elements. Qed.

Lemma sorted_NoDup (s : gset string) : NoDup (Py.sorted s).
Proof. rewrite sorted_Permutation. apply NoDup_elements. Qed.

Lemma sorted_Sorted (s : gset string) : Sorted String.le (Py.sorted s).
Proof. apply (Sorted_merge_sort String.le). Qed.

Lemma truthy_iff (s : string) : Py.truthy s = true <-> s <> "".
Proof. destruct s; simpl; split; congruence. Qed.

Lemma isspace_lower_char (c : ascii) :
  Py.isspace (Py.lower_char c) = Py.isspace c.
Proof. destruct c as [[] [] [] [] [] [] [] []]; reflexivity. Qed.

Lemma lower_lstrip (s : string) : Py.lower (Py.lstrip s) = Py.lstrip (Py.lower s).
Proof.
  induction s as [|c s IH]; simpl; [done|].
  rewrite isspace_lower_char. by destruct (Py.isspace c).
Qed.

Lemma lower_rstrip (s : string) : Py.lower (Py.rstrip s) = Py.rstrip (Py.lower s).
Proof.
  induction s as [|c s IH]; simpl; [done|].
  rewrite <- IH, isspace_lower_char.
  destruct (Py.rstrip s); simpl; [by destruct (Py.isspace c) | done].
Qed.

(** Trimming and lowercasing commute. *)
Lemma lower_strip (s : string) : Py.lower (Py.strip s) = Py.strip (Py.lower s).
Proof. unfold Py.strip. by rewrite lower_rstrip, lower_lstrip. Qed.

End PyFacts.

(* ===================================================================== *)
(** ** Role normalization *)

Section Roles.

Lemma elem_of_clean_roles (l : list (option string)) (x : string) :
  x ∈ clean_roles l <->
  x <> "" /\ exists r, Some r ∈ l /\ x = Py.lower (Py.strip r).
Proof.
  unfold clean_roles. rewrite elem_of_list_to_set, list_elem_of_filter.
  rewrite list_elem_of_In, in_map_iff.
  split.
  - intros [Hne (r & <- & Hin)]. split; [done|]. exists r. split; [|done].
    apply list_elem_of_In, list_elem_of_omap in Hin.
    destruct Hin as (o & Ho & Hid). simpl in Hid. by subst o.
  - intros [Hne (r & Hin & ->)]. split; [done|]. exists r. split; [done|].
    apply list_elem_of_In, list_elem_of_omap. by exists (Some r).
Qed.

Lemma elem_of_add_role (roles : gset string) (role : option string) (x : string) :
  x ∈ add_role roles role <->
  x ∈ roles \/ (x <> "" /\ exists r, role = Some r /\ x = Py.lower (Py.strip r)).
Proof.
  unfold add_role. destruct role as [r|].
  - destruct (Py.truthy _) eqn:E.
    + apply truthy_iff in E. rewrite elem_of_union, elem_of_singleton.
      split.
      * intros [-> | H]; [right; eauto | by left].
      * intros [H | [_ (r' & [= <-] & ->)]]; auto.
    + assert (Py.lower (Py.strip r) = "") as Hempty
        by (destruct (Py.lower _); [done | discriminate]).
      split; [by left|]. intros [H | [Hne (r' & [= <-] & ->)]]; [done|].
      by destruct Hne.
  - split; [by left|]. by intros [H | [_ (r' & [=] & _)]].
Qed.

Lemma foldl_add_role (l : list (option string)) (acc : gset string) :
  foldl add_role acc l = acc ∪ clean_roles l.
Proof.
  revert acc. induction l as [|role l IH]; intros acc; simpl.
  - apply set_eq. intros x. rewrite elem_of_union, elem_of_clean_roles.
    split; [by left|]. intros [H | [_ (r & Hin & _)]]; [done|].
    by apply elem_of_nil in Hin.
  - rewrite IH. apply set_eq. intros x.
    rewrite !elem_of_union, elem_of_add_role, !elem_of_clean_roles.
    split.
    + intros [[H | (Hne & r & -> & ->)] | (Hne & r & Hin & ->)]; [by left | |].
      * right. split; [done|]. exists r. split; [left | done].
      * right. split; [done|]. exists r. split; [by right | done].
    + intros [H | (Hne & r & Hin & ->)]; [by left; left|].
      apply elem_of_cons in Hin as [<- | Hin].
      * left; right. eauto.
      * right. eauto.
Qed.

Lemma normalize_roles_Some (l : list (option string)) :
  _normalize_roles (Some l) =
  if decide (clean_roles l = ∅) then {[ "system" ]} else clean_roles l.
Proof.
  unfold _normalize_roles. rewrite foldl_add_role.
  by rewrite (left_id_L ∅ (∪)).
Qed.

Lemma normalize_roles_nonempty (roles : principal_roles_t) :
  _normalize_roles roles <> ∅.
Proof.
  destruct roles as [l|]; [rewrite normalize_roles_Some; case_decide|];
    first [done | apply non_empty_singleton_L].
Qed.

Lemma normalize_roles_union_system (roles : principal_roles_t) :
  _normalize_roles roles ∪ {[ "system" ]}
  = match roles with
    | Some l => clean_roles l ∪ {[ "system" ]}
    | None => {[ "system" ]}
    end.
Proof.
  destruct roles as [l|]; [rewrite normalize_roles_Some|].
  - case_decide as Hl; [|done]. by rewrite Hl, (left_id_L ∅ (∪)).
  - apply (idemp_L (∪)).
Qed.

End Roles.

(* ===================================================================== *)
(** ** Key provisioning and the construction of the store *)

Section Provisioning.

Lemma coerce_fault (raw_key location reason : string) :
  key_fault raw_key = Some reason ->
  _coerce_fernet_key raw_key location = Raise (config_error reason location).
Proof.
  unfold key_fault, _coerce_fernet_key, config_error.
  destruct (negb (Py.truthy raw_key)); [by intros [= <-]|].
  destruct (Base64.urlsafe_b64decode_str _) as [decoded|]; [|by intros [= <-]].
  destruct (length decoded =? 32)%nat; [done | by intros [= <-]].
Qed.

Lemma coerce_sound (raw_key location : string) :
  key_fault raw_key = None ->
  _coerce_fernet_key raw_key location = Ok (Py.encode (Py.strip raw_key))
  /\ exists f, Fernet.new (Py.encode (Py.strip raw_key)) = Ok f /\ Fernet.wf f.
Proof.
  unfold key_fault, _coerce_fernet_key.
  destruct (negb (Py.truthy raw_key)); [done|].
  destruct (Base64.urlsafe_b64decode_str _) as [decoded|] eqn:Hdec; [|done].
  destruct (length decoded =? 32)%nat eqn:Hlen; [intros _ | done].
  split; [done|].
  unfold Base64.urlsafe_b64decode_str in Hdec.
  destruct (Base64.isascii _); [|done].
  unfold Fernet.new. rewrite Hdec, Hlen.
  eexists; split; [done|].
  apply Nat.eqb_eq in Hlen.
  unfold Fernet.wf; simpl. rewrite length_take, length_drop. lia.
Qed.

Lemma load_policy_fault env location config reason :
  key_fault (resolved_key env config) = Some reason ->
  load_policy env location config = Raise (config_error reason location).
Proof.
  intros H. unfold load_policy. fold (resolved_key env config).
  by rewrite (coerce_fault _ location _ H).
Qed.

Lemma load_policy_sound env location config :
  key_fault (resolved_key env config) = None ->
  exists f, Fernet.wf f
    /\ load_policy env location config
       = Ok (_normalize_location location, built_policy env location config f).
Proof.
  intros H. destruct (coerce_sound _ location H) as [Hc (f & Hf & Hwf)].
  exists f. split; [done|].
  unfold load_policy. fold (resolved_key env config).
  rewrite Hc. simpl. rewrite Hf. done.
Qed.

(** A definition loads exactly when its key has no fault. *)
Lemma load_policy_inv env location config key policy :
  load_policy env location config = Ok (key, policy) ->
  key_fault (resolved_key env config) = None
  /\ key = _normalize_location location
  /\ exists f, Fernet.wf f /\ policy = built_policy env location config f.
Proof.
  intros H. destruct (key_fault (resolved_key env config)) as [reason|] eqn:E.
  - by rewrite (load_policy_fault _ location _ _ E) in H.
  - destruct (load_policy_sound _ location _ E) as (f & Hwf & Hl).
    rewrite Hl in H. injection H as <- <-. eauto.
Qed.

Lemma first_fault env (defs : definitions_t) :
  Exists (faulty env) defs ->
  exists pre d post,
    defs = pre ++ d :: post /\ Forall (fun d' => ~ faulty env d') pre
    /\ faulty env d.
Proof.
  induction 1 as [d l Hd | d l _ IH].
  - destruct (decide (faulty env d)); [|done].
    exists [], d, l. by repeat split.
  - destruct (decide (faulty env d)) as [Hd | Hd].
    + exists [], d, l. by repeat split.
    + destruct IH as (pre & d' & post & -> & Hpre & Hd').
      exists (d :: pre), d', post. repeat split; [|done]. by constructor.
Qed.

Lemma load_policies_fault env pre location config post policies reason :
  Forall (fun d' => ~ faulty env d') pre ->
  key_fault (resolved_key env config) = Some reason ->
  AdaptiveSecurityManager._load_policies env
    (pre ++ (location, config) :: post) policies
  = Raise (config_error reason location).
Proof.
  intros Hpre Hfault. revert policies.
  induction Hpre as [|[l c] pre Hd _ IH]; intros policies; simpl.
  - by rewrite (load_policy_fault _ location _ _ Hfault).
  - unfold faulty in Hd; simpl in Hd.
    destruct (key_fault (resolved_key env c)) eqn:E;
      [by destruct Hd; eexists|].
    destruct (load_policy_sound _ l _ E) as (f & _ & ->). simpl. apply IH.
Qed.

(** Where each policy of a loaded store comes from: the map the loop
    started with, or the last definition with that normalized name. *)
Lemma load_policies_inv env defs policies result_map :
  AdaptiveSecurityManager._load_policies env defs policies = Ok result_map ->
  forall key policy, result_map !! key = Some policy ->
    (policies !! key = Some policy
     /\ Forall (fun d => _normalize_location d.1 <> key) defs)
    \/ exists pre location config post f,
         defs = pre ++ (location, config) :: post
         /\ _normalize_location location = key
         /\ Forall (fun d => _normalize_location d.1 <> key) post
         /\ key_fault (resolved_key env config) = None
         /\ Fernet.wf f
         /\ policy = built_policy env location config f.
Proof.
  revert policies. induction defs as [|[l c] defs IH]; intros policies; simpl.
  - intros [= <-] key policy Hk. left. by split.
  - destruct (load_policy env l c) as [[k p]|e] eqn:Hl; [simpl | done].
    intros Hrest key policy Hk.
    apply load_policy_inv in Hl as (Hnf & -> & f & Hwf & ->).
    destruct (IH _ Hrest key policy Hk)
      as [[Hins Hnone] | (pre & l' & c' & post & f' & -> & Hn & Hpost & Hrest')].
    + destruct (decide (_normalize_location l = key)) as [Heq | Hne].
      * rewrite Heq, lookup_insert_eq in Hins. injection Hins as <-.
        right. exists [], l, c, defs, f. by split_and!.
      * rewrite lookup_insert_ne in Hins by done.
        left. split; [done|]. by constructor.
    + right. exists ((l, c) :: pre), l', c', post, f'. by destruct Hrest' as (? & ? & ?); split_and!.
Qed.

End Provisioning.

Section Store.

Lemma init_inv env defs m :
  AdaptiveSecurityManager.__init__ env defs = Ok m ->
  forall key policy,
    AdaptiveSecurityManager._policies m !! key = Some policy ->
    exists pre location config post f,
      AdaptiveSecurityManager.definitions_or_default defs
      = pre ++ (location, config) :: post
      /\ _normalize_location location = key
      /\ Forall (fun d => _normalize_location d.1 <> key) post
      /\ key_fault (resolved_key env config) = None
      /\ Fernet.wf f
      /\ policy = built_policy env location config f.
Proof.
  unfold AdaptiveSecurityManager.__init__.
  destruct (AdaptiveSecurityManager._load_policies _ _ _) as [ps|e] eqn:Hl;
    [simpl | done].
  intros [= <-] key policy Hk; simpl in Hk.
  destruct (load_policies_inv _ _ _ _ Hl key policy Hk) as [[Hempty _] | H];
    [by rewrite lookup_empty in Hempty | done].
Qed.

Lemma policy_for_Ok m location policy :
  AdaptiveSecurityManager._policy_for m location = Ok policy <->
  AdaptiveSecurityManager._policies m !! _normalize_location location
  = Some policy.
Proof.
  unfold AdaptiveSecurityManager._policy_for.
  destruct (_ !! _); split; congruence.
Qed.

Lemma policy_for_Raise m location e :
  AdaptiveSecurityManager._policy_for m location = Raise e <->
  AdaptiveSecurityManager._policies m !! _normalize_location location = None
  /\ e = lookup_error location.
Proof.
  unfold AdaptiveSecurityManager._policy_for, lookup_error.
  destruct (_ !! _); split; [done | by intros [? _] | | ].
  - by intros [= <-].
  - by intros [_ ->].
Qed.

(** Every policy of a built store: its name is its key, its key object
    is well formed and "system" is among its roles. *)
Lemma built_store_policy env defs m location policy :
  AdaptiveSecurityManager.__init__ env defs = Ok m ->
  AdaptiveSecurityManager._policy_for m location = Ok policy ->
  _LocationPolicy.name policy = _normalize_location location
  /\ Fernet.wf (_LocationPolicy.fernet policy)
  /\ "system" ∈ _LocationPolicy.allowed_roles policy.
Proof.
  intros Hinit Hp. apply policy_for_Ok in Hp.
  destruct (init_inv _ _ _ Hinit _ _ Hp)
    as (pre & l & c & post & f & _ & Hn & _ & _ & Hwf & ->).
  simpl. split_and!; [done | done |].
  apply elem_of_union_r. by apply elem_of_singleton.
Qed.

Lemma authorize_Ok policy roles :
  _LocationPolicy.authorize policy roles = Ok tt <->
  _normalize_roles roles ∩ _LocationPolicy.allowed_roles policy <> ∅.
Proof. unfold _LocationPolicy.authorize. case_decide; split; done. Qed.

Lemma authorize_Raise policy roles :
  _normalize_roles roles ∩ _LocationPolicy.allowed_roles policy = ∅ ->
  _LocationPolicy.authorize policy roles
  = Raise (authorization_error (_LocationPolicy.name policy)
             (_LocationPolicy.allowed_roles policy)).
Proof. unfold _LocationPolicy.authorize. by case_decide. Qed.

End Store.

Section ReferenceCipher.

Lemma ideal_key_length f : Fernet.wf f -> length (IdealFernet.key f) = 32%nat.
Proof.
  intros [H1 H2]. unfold IdealFernet.key. rewrite length_app. lia.
Qed.

Lemma ideal_round_trip : fernet_round_trip IdealFernet.crypto.
Proof.
  intros f now iv data Hwf. simpl. unfold IdealFernet.decrypt, IdealFernet.encrypt.
  pose proof (ideal_key_length f Hwf) as Hlen.
  rewrite take_app_length' by done.
  rewrite decide_True by done. by rewrite drop_app_length' by done.
Qed.

Lemma ideal_key_binding : fernet_key_binding IdealFernet.crypto.
Proof.
  intros f1 f2 now iv data Hwf1 Hwf2 Hne. simpl.
  unfold IdealFernet.decrypt, IdealFernet.encrypt.
  rewrite take_app_length' by (symmetry; by apply ideal_key_length).
  rewrite decide_False; [done|].
  unfold IdealFernet.key. intros Heq. apply Hne.
  destruct Hwf1 as [H1 _], Hwf2 as [H2 _].
  apply app_inj_1 in Heq as [? _]; [done | lia].
Qed.

End ReferenceCipher.

(* ===================================================================== *)
(** ** Encryption and decryption *)

Section CryptoEngine.
Context {C : FernetCrypto}.

Lemma encrypt_authorized m location policy data roles now iv :
  AdaptiveSecurityManager._policy_for m location = Ok policy ->
  _LocationPolicy.authorize policy roles = Ok tt ->
  AdaptiveSecurityManager.encrypt m location (Some data) roles now iv
  = Ok (Some (fernet_encrypt (_LocationPolicy.fernet policy) now iv data)).
Proof.
  intros Hp Ha. unfold AdaptiveSecurityManager.encrypt.
  rewrite Hp; simpl. by rewrite Ha.
Qed.

Lemma decrypt_authorized m location policy token roles :
  AdaptiveSecurityManager._policy_for m location = Ok policy ->
  _LocationPolicy.authorize policy roles = Ok tt ->
  AdaptiveSecurityManager.decrypt m location (Some token) roles
  = match fernet_decrypt (_LocationPolicy.fernet policy) token with
    | Some plaintext => Ok (Some plaintext)
    | None =>
        Raise (EncryptionError ("failed to decrypt payload from "
                                +:+ _LocationPolicy.name policy))
    end.
Proof.
  intros Hp Ha. unfold AdaptiveSecurityManager.decrypt.
  rewrite Hp; simpl. by rewrite Ha.
Qed.

(** Two locations that hold the same key object accept each other's
    tokens. *)
Lemma shared_key_decrypts m l1 l2 p1 p2 data roles now iv :
  fernet_round_trip C ->
  AdaptiveSecurityManager._policy_for m l1 = Ok p1 ->
  AdaptiveSecurityManager._policy_for m l2 = Ok p2 ->
  _LocationPolicy.fernet p1 = _LocationPolicy.fernet p2 ->
  Fernet.wf (_LocationPolicy.fernet p1) ->
  _LocationPolicy.authorize p1 roles = Ok tt ->
  _LocationPolicy.authorize p2 roles = Ok tt ->
  exists token,
    AdaptiveSecurityManager.encrypt m l1 (Some data) roles now iv
    = Ok (Some token)
    /\ AdaptiveSecurityManager.decrypt m l2 (Some token) roles
       = Ok (Some data).
Proof.
  intros Hrt H1 H2 Hsame Hwf Ha1 Ha2. eexists. split.
  - by apply encrypt_authorized.
  - rewrite (decrypt_authorized _ _ _ _ _ H2 Ha2), <- Hsame.
    by rewrite Hrt.
Qed.

End CryptoEngine.

(** C1. Round trip: in a store built by the constructor, for a configured
    location, any payload (the empty one included) and any role input whose
    normalization meets the location's authorized roles, [encrypt] returns
    a token and [decrypt] of that token at the same location with the same
    roles returns exactly the payload.  The cipher is assumed to decrypt its
    own tokens ([fernet_round_trip]). *)
Theorem encrypt_decrypt_round_trip (C : FernetCrypto) env defs m location policy
    (data : list byte) roles now iv :
  fernet_round_trip C ->
  AdaptiveSecurityManager.__init__ env defs = Ok m ->
  AdaptiveSecurityManager._policy_for m location = Ok policy ->
  _normalize_roles roles ∩ _LocationPolicy.allowed_roles policy <> ∅ ->
  exists token,
    AdaptiveSecurityManager.encrypt m location (Some data) roles now iv
    = Ok (Some token)
    /\ AdaptiveSecurityManager.decrypt m location (Some token) roles
       = Ok (Some data).
Proof.
  intros Hrt Hinit Hp Hroles.
  destruct (built_store_policy _ _ _ _ _ Hinit Hp) as (_ & Hwf & _).
  apply authorize_Ok in Hroles.
  by apply (shared_key_decrypts m location location policy policy).
Qed.

Lemma encrypt_decrypt_round_trip_witness :
  exists token,
    AdaptiveSecurityManager.encrypt (C := IdealFernet.crypto) default_manager
      " S3" (Some []) (Some [Some "Engineering "; None]) 1700000000 iv0
    = Ok (Some token)
    /\ AdaptiveSecurityManager.decrypt (C := IdealFernet.crypto) default_manager
         " S3" (Some token) (Some [Some "Engineering "; None])
       = Ok (Some []).
Proof.
  apply (encrypt_decrypt_round_trip IdealFernet.crypto ∅ None default_manager
           " S3" (policy_of default_manager "s3")).
  - exact ideal_round_trip.
  - vm_compute. reflexivity.
  - vm_compute. reflexivity.
  - vm_compute. discriminate.
Defined.

(** C3 as stated fails: two locations provisioned with the same key accept
    each other's tokens.  In [shared_key_env] the default definitions give
    "s3" and "azure" one key; a token made at "s3" decrypts at "azure" to
    the payload, and no [EncryptionError] is raised. *)
Lemma cross_location_shared_key_accepts :
  security_manager shared_key_env = Ok shared_key_manager
  /\ _normalize_location "s3" <> _normalize_location "azure"
  /\ is_Ok (AdaptiveSecurityManager._policy_for shared_key_manager "s3")
  /\ is_Ok (AdaptiveSecurityManager._policy_for shared_key_manager "azure")
  /\ exists token,
       AdaptiveSecurityManager.encrypt (C := IdealFernet.crypto)
         shared_key_manager "s3" (Some hello) (Some [Some "engineering"])
         1700000000 iv0
       = Ok (Some token)
       /\ AdaptiveSecurityManager.decrypt (C := IdealFernet.crypto)
            shared_key_manager "azure" (Some token) (Some [Some "engineering"])
          = Ok (Some hello).
Proof.
  split_and!.
  - vm_compute. reflexivity.
  - vm_compute. discriminate.
  - vm_compute. exact I.
  - vm_compute. exact I.
  - apply (shared_key_decrypts (C := IdealFernet.crypto) shared_key_manager
             "s3" "azure"
             (policy_of shared_key_manager "s3")
             (policy_of shared_key_manager "azure")).
    + exact ideal_round_trip.
    + vm_compute. reflexivity.
    + vm_compute. reflexivity.
    + vm_compute. reflexivity.
    + vm_compute. split; reflexivity.
    + vm_compute. reflexivity.
    + vm_compute. reflexivity.
Qed.

(** C3, amended. In a store built by the constructor, when the policies
    of two locations hold keys whose signing halves differ and the roles are
    authorized at both locations, a token produced by [encrypt] at the first
    location is refused by [decrypt] at the second with an [EncryptionError]
    that names the second location; no plaintext is returned.  The cipher is
    assumed to refuse a token under a different signing key
    ([fernet_key_binding]). *)
Theorem cross_location_rejection (C : FernetCrypto) env defs m l1 l2 p1 p2
    (data : list byte) roles now iv :
  fernet_key_binding C ->
  AdaptiveSecurityManager.__init__ env defs = Ok m ->
  AdaptiveSecurityManager._policy_for m l1 = Ok p1 ->
  AdaptiveSecurityManager._policy_for m l2 = Ok p2 ->
  Fernet._signing_key (_LocationPolicy.fernet p1)
  <> Fernet._signing_key (_LocationPolicy.fernet p2) ->
  _normalize_roles roles ∩ _LocationPolicy.allowed_roles p1 <> ∅ ->
  _normalize_roles roles ∩ _LocationPolicy.allowed_roles p2 <> ∅ ->
  _normalize_location l1 <> _normalize_location l2
  /\ exists token,
       AdaptiveSecurityManager.encrypt m l1 (Some data) roles now iv
       = Ok (Some token)
       /\ AdaptiveSecurityManager.decrypt m l2 (Some token) roles
          = Raise (EncryptionError ("failed to decrypt payload from "
                                    +:+ _normalize_location l2)).
Proof.
  intros Hbind Hinit H1 H2 Hkeys Ha1 Ha2.
  destruct (built_store_policy _ _ _ _ _ Hinit H1) as (_ & Hwf1 & _).
  destruct (built_store_policy _ _ _ _ _ Hinit H2) as (Hname & Hwf2 & _).
  apply authorize_Ok in Ha1, Ha2. split.
  - intros Heq. apply policy_for_Ok in H1, H2. rewrite Heq in H1.
    rewrite H1 in H2. injection H2 as ->. by apply Hkeys.
  - eexists. split; [by apply encrypt_authorized|].
    rewrite (decrypt_authorized _ _ _ _ _ H2 Ha2).
    rewrite Hbind by done. by rewrite Hname.
Qed.

Lemma cross_location_rejection_witness :
  _normalize_location "s3" <> _normalize_location "AZURE"
  /\ exists token,
       AdaptiveSecurityManager.encrypt (C := IdealFernet.crypto) default_manager
         "s3" (Some hello) (Some [Some "engineering"]) 1700000000 iv0
       = Ok (Some token)
       /\ AdaptiveSecurityManager.decrypt (C := IdealFernet.crypto)
            default_manager "AZURE" (Some token) (Some [Some "engineering"])
          = Raise (EncryptionError ("failed to decrypt payload from "
                                    +:+ _normalize_location "AZURE")).
Proof.
  apply (cross_location_rejection IdealFernet.crypto ∅ None default_manager
           "s3" "AZURE" (policy_of default_manager "s3")
           (policy_of default_manager "azure")).
  - exact ideal_key_binding.
  - vm_compute. reflexivity.
  - vm_compute. reflexivity.
  - vm_compute. reflexivity.
  - vm_compute. discriminate.
  - vm_compute. discriminate.
  - vm_compute. discriminate.
Defined.

(** C5. Absent data passes through: for every manager, location string and
    role input, [encrypt] and [decrypt] of an absent payload return absent.
    No authorization takes place: the answer is the same where the policy
    of the location refuses the roles, although a present payload is then
    refused with the authorization error. *)
Theorem absent_data_pass_through (C : FernetCrypto) m location roles now iv :
  AdaptiveSecurityManager.encrypt m location None roles now iv = Ok None
  /\ AdaptiveSecurityManager.decrypt m location None roles = Ok None
  /\ forall policy,
       AdaptiveSecurityManager._policy_for m location = Ok policy ->
       _normalize_roles roles ∩ _LocationPolicy.allowed_roles policy = ∅ ->
       forall data,
         AdaptiveSecurityManager.encrypt m location (Some data) roles now iv
         = Raise (authorization_error (_LocationPolicy.name policy)
                    (_LocationPolicy.allowed_roles policy))
         /\ AdaptiveSecurityManager.decrypt m location (Some data) roles
            = Raise (authorization_error (_LocationPolicy.name policy)
                       (_LocationPolicy.allowed_roles policy)).
Proof.
  split_and!; [done | done |].
  intros policy Hp Hroles data. apply authorize_Raise in Hroles.
  unfold AdaptiveSecurityManager.encrypt, AdaptiveSecurityManager.decrypt.
  rewrite Hp; simpl. by rewrite Hroles.
Qed.

Lemma absent_data_pass_through_witness :
  AdaptiveSecurityManager.encrypt (C := IdealFernet.crypto) default_manager
    "s3" None (Some [Some "auditor"]) 1700000000 iv0 = Ok None
  /\ AdaptiveSecurityManager.decrypt (C := IdealFernet.crypto) default_manager
       "s3" None (Some [Some "auditor"]) = Ok None
  /\ AdaptiveSecurityManager.decrypt (C := IdealFernet.crypto) default_manager
       "s3" (Some hello) (Some [Some "auditor"])
     = Raise (AuthorizationError
                "principal lacks roles for s3; required one of ['analytics', 'engineering', 'system']").
Proof.
  destruct (absent_data_pass_through IdealFernet.crypto default_manager "s3"
              (Some [Some "auditor"]) 1700000000 iv0) as (He & Hd & Hauth).
  split_and!; [exact He | exact Hd |].
  destruct (Hauth (policy_of default_manager "s3")) with (data := hello)
    as [_ Hdec].
  - vm_compute. reflexivity.
  - vm_compute. reflexivity.
  - rewrite Hdec. vm_compute. reflexivity.
Defined.

(** C10. The absent-data check precedes policy resolution: at a location
    with no configured policy, [encrypt] and [decrypt] of an absent payload
    still return absent and raise nothing, whereas a present payload raises
    the lookup error there. *)
Theorem absent_data_skips_lookup (C : FernetCrypto) m location roles now iv :
  AdaptiveSecurityManager._policies m !! _normalize_location location = None ->
  AdaptiveSecurityManager._policy_for m location = Raise (lookup_error location)
  /\ AdaptiveSecurityManager.encrypt m location None roles now iv = Ok None
  /\ AdaptiveSecurityManager.decrypt m location None roles = Ok None
  /\ forall data,
       AdaptiveSecurityManager.encrypt m location (Some data) roles now iv
       = Raise (lookup_error location)
       /\ AdaptiveSecurityManager.decrypt m location (Some data) roles
          = Raise (lookup_error location).
Proof.
  intros Habsent.
  assert (AdaptiveSecurityManager._policy_for m location
          = Raise (lookup_error location)) as Hp
    by by apply policy_for_Raise.
  split_and!; [done | done | done |].
  intros data.
  unfold AdaptiveSecurityManager.encrypt, AdaptiveSecurityManager.decrypt.
  by rewrite Hp.
Qed.

Lemma absent_data_skips_lookup_witness :
  AdaptiveSecurityManager._policy_for default_manager "tape"
  = Raise (lookup_error "tape")
  /\ AdaptiveSecurityManager.encrypt (C := IdealFernet.crypto) default_manager
       "tape" None None 1700000000 iv0 = Ok None
  /\ AdaptiveSecurityManager.decrypt (C := IdealFernet.crypto) default_manager
       "tape" None None = Ok None
  /\ forall data,
       AdaptiveSecurityManager.encrypt (C := IdealFernet.crypto) default_manager
         "tape" (Some data) None 1700000000 iv0
       = Raise (lookup_error "tape")
       /\ AdaptiveSecurityManager.decrypt (C := IdealFernet.crypto)
            default_manager "tape" (Some data) None
          = Raise (lookup_error "tape").
Proof.
  apply (absent_data_skips_lookup IdealFernet.crypto default_manager "tape").
  vm_compute. reflexivity.
Defined.

(** C2. The authorization gate: [authorize] succeeds exactly when the
    normalized roles meet the policy's allowed roles, for an absent role
    input too; otherwise it raises the [AuthorizationError] whose message is
    built from the policy's name and the [repr] of the sorted list of its
    allowed roles.  That list is in ascending order, without repetition, and
    holds exactly the allowed roles, so the message is a function of the
    policy's name and role set alone. *)
Theorem authorize_gate (policy : _LocationPolicy.t) (roles : principal_roles_t) :
  (_LocationPolicy.authorize policy roles = Ok tt <->
   _normalize_roles roles ∩ _LocationPolicy.allowed_roles policy <> ∅)
  /\ (_LocationPolicy.authorize policy roles <> Ok tt ->
      _LocationPolicy.authorize policy roles
      = Raise (AuthorizationError
                 ("principal lacks roles for " +:+ _LocationPolicy.name policy
                  +:+ "; required one of "
                  +:+ Py.repr_list
                        (Py.sorted (_LocationPolicy.allowed_roles policy)))))
  /\ Sorted String.le (Py.sorted (_LocationPolicy.allowed_roles policy))
  /\ NoDup (Py.sorted (_LocationPolicy.allowed_roles policy))
  /\ (forall r, r ∈ Py.sorted (_LocationPolicy.allowed_roles policy)
                <-> r ∈ _LocationPolicy.allowed_roles policy)
  /\ (forall policy' roles',
        _LocationPolicy.name policy' = _LocationPolicy.name policy ->
        _LocationPolicy.allowed_roles policy'
        = _LocationPolicy.allowed_roles policy ->
        _LocationPolicy.authorize policy roles <> Ok tt ->
        _LocationPolicy.authorize policy' roles' <> Ok tt ->
        _LocationPolicy.authorize policy' roles'
        = _LocationPolicy.authorize policy roles).
Proof.
  split_and!.
  - apply authorize_Ok.
  - unfold _LocationPolicy.authorize. by case_decide.
  - apply sorted_Sorted.
  - apply sorted_NoDup.
  - intros r. apply elem_of_sorted.
  - intros policy' roles' Hname Hroles.
    unfold _LocationPolicy.authorize. rewrite Hname, Hroles.
    by repeat case_decide.
Qed.

Lemma authorize_gate_witness :
  _LocationPolicy.authorize (policy_of default_manager "s3") (Some [Some "auditor"])
  = Raise (AuthorizationError
             "principal lacks roles for s3; required one of ['analytics', 'engineering', 'system']")
  /\ _LocationPolicy.authorize (policy_of default_manager "s3")
       (Some [Some " Engineering"]) = Ok tt.
Proof.
  destruct (authorize_gate (policy_of default_manager "s3") (Some [Some "auditor"]))
    as (_ & Hfail & _).
  destruct (authorize_gate (policy_of default_manager "s3")
              (Some [Some " Engineering"])) as (Hok & _).
  split.
  - rewrite Hfail; [vm_compute; reflexivity|]. vm_compute. discriminate.
  - apply Hok. vm_compute. discriminate.
Defined.

(** C7. Policy resolution trims and lowercases the location before the
    lookup, so two spellings that differ only in letter case resolve alike,
    and it fails, with the lookup error quoting the location as given,
    exactly when the normalized name is absent from the store; [encrypt] and
    [decrypt] of a present payload, [describe_policy] and [allowed_roles]
    raise that lookup error in exactly the same case. *)
Theorem policy_resolution (C : FernetCrypto) m location data roles now iv :
  let absent :=
    AdaptiveSecurityManager._policies m !! Py.lower (Py.strip location) = None in
  _normalize_location location = Py.lower (Py.strip location)
  /\ (forall policy,
        AdaptiveSecurityManager._policy_for m location = Ok policy <->
        AdaptiveSecurityManager._policies m !! Py.lower (Py.strip location)
        = Some policy)
  /\ ((exists e, AdaptiveSecurityManager._policy_for m location = Raise e)
      <-> absent)
  /\ (forall e, AdaptiveSecurityManager._policy_for m location = Raise e ->
        e = ValueError ("no security policy configured for location '"
                        +:+ location +:+ "'"))
  /\ (forall location', Py.lower location' = Py.lower location ->
        AdaptiveSecurityManager._policy_for m location'
        = match AdaptiveSecurityManager._policy_for m location with
          | Ok policy => Ok policy
          | Raise _ => Raise (lookup_error location')
          end)
  /\ (AdaptiveSecurityManager.describe_policy m location
      = Raise (lookup_error location) <-> absent)
  /\ (AdaptiveSecurityManager.allowed_roles m location
      = Raise (lookup_error location) <-> absent)
  /\ (AdaptiveSecurityManager.encrypt m location (Some data) roles now iv
      = Raise (lookup_error location) <-> absent)
  /\ (AdaptiveSecurityManager.decrypt m location (Some data) roles
      = Raise (lookup_error location) <-> absent).
Proof.
  intros absent. subst absent.
  change (Py.lower (Py.strip location)) with (_normalize_location location).
  split_and!.
  - done.
  - intros policy. apply policy_for_Ok.
  - split.
    + intros [e He]. by apply policy_for_Raise in He as [? _].
    + intros H. exists (lookup_error location). by apply policy_for_Raise.
  - intros e He. by apply policy_for_Raise in He as [_ ->].
  - intros location' Hcase.
    assert (_normalize_location location' = _normalize_location location) as Hn
      by (unfold _normalize_location; by rewrite !lower_strip, Hcase).
    unfold AdaptiveSecurityManager._policy_for. rewrite Hn.
    by destruct (_ !! _).
  - unfold AdaptiveSecurityManager.describe_policy,
      AdaptiveSecurityManager._policy_for.
    destruct (_ !! _); simpl; split; done.
  - unfold AdaptiveSecurityManager.allowed_roles,
      AdaptiveSecurityManager._policy_for.
    destruct (_ !! _); simpl; split; done.
  - unfold AdaptiveSecurityManager.encrypt,
      AdaptiveSecurityManager._policy_for, _LocationPolicy.authorize.
    destruct (_ !! _); simpl; [|split; done].
    case_decide; simpl; split; done.
  - unfold AdaptiveSecurityManager.decrypt,
      AdaptiveSecurityManager._policy_for, _LocationPolicy.authorize.
    destruct (_ !! _); simpl; [|split; done].
    case_decide; simpl; [split; done|].
    destruct (fernet_decrypt _ _); split; done.
Qed.

Lemma policy_resolution_witness :
  AdaptiveSecurityManager._policy_for default_manager "  GCS "
  = AdaptiveSecurityManager._policy_for default_manager "gcs"
  /\ AdaptiveSecurityManager.describe_policy default_manager "tape"
     = Raise (lookup_error "tape").
Proof.
  destruct (policy_resolution IdealFernet.crypto default_manager "  gcs "
              hello None 1700000000 iv0) as (_ & Hok & _ & _ & Hcase & _).
  destruct (policy_resolution IdealFernet.crypto default_manager "tape"
              hello None 1700000000 iv0) as (_ & _ & _ & _ & _ & Hdesc & _).
  split.
  - rewrite (Hcase "  GCS "); [vm_compute; reflexivity | reflexivity].
  - apply Hdesc. vm_compute. reflexivity.
Defined.

(** C8. Role normalization: an absent input gives exactly {"system"}; a
    present input gives the set of its roles, each trimmed and lowercased,
    the empty ones (and [None] items) dropped, and gives exactly {"system"}
    when that set is empty.  Hence the explicitly empty role collection is
    authorized by every policy of a store the constructor built. *)
Theorem normalize_roles_spec (l : list (option string)) :
  _normalize_roles None = {[ "system" ]}
  /\ (forall x, x ∈ clean_roles l <->
        x <> "" /\ exists r, Some r ∈ l /\ x = Py.lower (Py.strip r))
  /\ (clean_roles l <> ∅ -> _normalize_roles (Some l) = clean_roles l)
  /\ (clean_roles l = ∅ -> _normalize_roles (Some l) = {[ "system" ]})
  /\ _normalize_roles (Some []) = {[ "system" ]}
  /\ (forall env defs m location policy,
        AdaptiveSecurityManager.__init__ env defs = Ok m ->
        AdaptiveSecurityManager._policy_for m location = Ok policy ->
        _LocationPolicy.authorize policy (Some []) = Ok tt
        /\ _LocationPolicy.authorize policy None = Ok tt
        /\ (clean_roles l = ∅ ->
            _LocationPolicy.authorize policy (Some l) = Ok tt)).
Proof.
  assert (forall l', clean_roles l' = ∅ ->
            _normalize_roles (Some l') = {[ "system" ]}) as Hempty
    by (intros l' Hl'; rewrite normalize_roles_Some; by case_decide).
  assert (clean_roles [] = ∅) as Hnil by done.
  split_and!.
  - done.
  - intros x. apply elem_of_clean_roles.
  - intros Hne. rewrite normalize_roles_Some. by case_decide.
  - apply Hempty.
  - by apply Hempty.
  - intros env defs m location policy Hinit Hp.
    destruct (built_store_policy _ _ _ _ _ Hinit Hp) as (_ & _ & Hsys).
    assert (forall roles, _normalize_roles roles = {[ "system" ]} ->
              _LocationPolicy.authorize policy roles = Ok tt) as Hauth.
    { intros roles Hroles. apply authorize_Ok. rewrite Hroles.
      intros Hcap. apply (not_elem_of_empty (C := gset string) "system").
      rewrite <- Hcap. apply elem_of_intersection.
      split; [by apply elem_of_singleton | done]. }
    split_and!; [by apply Hauth, Hempty | by apply Hauth |].
    intros Hl. by apply Hauth, Hempty.
Qed.

Lemma normalize_roles_spec_witness :
  _normalize_roles (Some [Some "  "; None; Some ""]) = {[ "system" ]}
  /\ _normalize_roles (Some [Some " Ops"; None; Some "DEV "; Some " "])
     = {[ "ops"; "dev" ]}
  /\ _LocationPolicy.authorize (policy_of default_manager "gcs") (Some []) = Ok tt.
Proof.
  destruct (normalize_roles_spec [Some "  "; None; Some ""])
    as (_ & _ & _ & Hempty & _).
  destruct (normalize_roles_spec [Some " Ops"; None; Some "DEV "; Some " "])
    as (_ & _ & Hsome & _ & _ & Hstore).
  split_and!.
  - apply Hempty. vm_compute. reflexivity.
  - rewrite Hsome; [vm_compute; reflexivity | vm_compute; discriminate].
  - apply (Hstore ∅ None default_manager "gcs"); vm_compute; reflexivity.
Defined.

(* ===================================================================== *)
(** ** Construction of the store *)

Section Construction.

Lemma key_rejected_fault (raw_key : string) :
  key_rejected raw_key <-> is_Some (key_fault raw_key).
Proof.
  unfold key_rejected, key_fault. destruct raw_key as [|c raw]; simpl.
  - split; [by eexists | by left].
  - destruct (Base64.urlsafe_b64decode_str _) as [decoded|].
    + destruct (length decoded =? 32)%nat eqn:Hlen.
      * apply Nat.eqb_eq in Hlen. split.
        -- intros [? | [? | (d & [= <-] & Hd)]]; done.
        -- by intros [? ?].
      * apply Nat.eqb_neq in Hlen. split; [by eexists|].
        intros _. right; right. by exists decoded.
    + split; [by eexists | by right; left].
Qed.

Lemma key_fault_reason (raw_key reason : string) :
  key_fault raw_key = Some reason -> reason ∈ config_reasons.
Proof.
  unfold key_fault, config_reasons.
  destruct (negb _); [intros [= <-]; apply list_elem_of_here|].
  destruct (Base64.urlsafe_b64decode_str _) as [decoded|];
    [|intros [= <-]; apply list_elem_of_further, list_elem_of_here].
  destruct (length decoded =? 32)%nat; [done|].
  intros [= <-]. do 2 apply list_elem_of_further. apply list_elem_of_here.
Qed.

Lemma load_policies_untouched env defs policies result_map key :
  AdaptiveSecurityManager._load_policies env defs policies = Ok result_map ->
  Forall (fun d => _normalize_location d.1 <> key) defs ->
  result_map !! key = policies !! key.
Proof.
  revert policies. induction defs as [|[l c] defs IH]; intros policies; simpl.
  - by intros [= <-].
  - destruct (load_policy env l c) as [[k p]|e] eqn:Hl; [simpl | done].
    intros Hrest Hall. apply Forall_cons in Hall as [Hne Hall].
    apply load_policy_inv in Hl as (_ & -> & _).
    rewrite (IH _ Hrest Hall). by apply lookup_insert_ne.
Qed.

(** The last definition of a normalized name is the one the store keeps. *)
Lemma load_policies_last env pre location config post policies result_map :
  AdaptiveSecurityManager._load_policies env
    (pre ++ (location, config) :: post) policies = Ok result_map ->
  Forall (fun d => _normalize_location d.1 <> _normalize_location location) post ->
  exists f,
    result_map !! _normalize_location location
    = Some (built_policy env location config f).
Proof.
  revert policies. induction pre as [|[l c] pre IH]; intros policies; simpl.
  - destruct (load_policy env location config) as [[k p]|e] eqn:Hl;
      [simpl | done].
    intros Hrest Hpost.
    apply load_policy_inv in Hl as (_ & -> & f & _ & ->).
    exists f. rewrite (load_policies_untouched _ _ _ _ _ Hrest Hpost).
    apply lookup_insert_eq.
  - destruct (load_policy env l c) as [[k p]|e]; [simpl | done].
    apply IH.
Qed.

Lemma built_policy_roles env location config f :
  _LocationPolicy.allowed_roles (built_policy env location config f)
  = spec_allowed_roles env config.
Proof.
  unfold spec_allowed_roles, parsed_env_roles, env_roles_input; simpl.
  rewrite <- !(assoc_L (∪)). f_equal.
  rewrite normalize_roles_union_system.
  destruct (Py.or_else (Config.env_roles config) "") as [|c var]; simpl.
  - by rewrite (left_id_L ∅ (∪)).
  - done.
Qed.

End Construction.

(** C4. A faulty key stops construction: when some definition resolves to a
    key text that is empty, is not base64, or does not decode to exactly 32
    bytes, the constructor returns no manager; it raises the [ValueError] of
    the first such definition, whose message gives the reason and quotes that
    definition's location. *)
Theorem faulty_key_fails_construction env (definitions : option definitions_t) :
  Exists (fun d => key_rejected (resolved_key env d.2))
    (AdaptiveSecurityManager.definitions_or_default definitions) ->
  exists pre location config post reason,
    AdaptiveSecurityManager.definitions_or_default definitions
    = pre ++ (location, config) :: post
    /\ Forall (fun d => ~ key_rejected (resolved_key env d.2)) pre
    /\ key_rejected (resolved_key env config)
    /\ reason ∈ config_reasons
    /\ AdaptiveSecurityManager.__init__ env definitions
       = Raise (ValueError (reason +:+ " for location '" +:+ location +:+ "'")).
Proof.
  intros Hex.
  assert (Exists (faulty env)
            (AdaptiveSecurityManager.definitions_or_default definitions)) as Hf.
  { eapply Exists_impl; [exact Hex|]. intros d Hd. by apply key_rejected_fault. }
  destruct (first_fault _ _ Hf) as (pre & [location config] & post & Hsplit & Hpre & Hd).
  destruct Hd as [reason Hreason]; simpl in Hreason.
  exists pre, location, config, post, reason. split_and!.
  - done.
  - eapply Forall_impl; [exact Hpre|]. intros d Hd Hrej.
    by apply Hd, key_rejected_fault.
  - apply key_rejected_fault. by exists reason.
  - by apply key_fault_reason in Hreason.
  - unfold AdaptiveSecurityManager.__init__. rewrite Hsplit.
    by rewrite (load_policies_fault _ _ _ _ _ _ _ Hpre Hreason).
Qed.

Lemma faulty_key_fails_construction_witness :
  exists pre location config post reason,
    AdaptiveSecurityManager.definitions_or_default None
    = pre ++ (location, config) :: post
    /\ Forall (fun d => ~ key_rejected (resolved_key short_key_env d.2)) pre
    /\ key_rejected (resolved_key short_key_env config)
    /\ reason ∈ config_reasons
    /\ AdaptiveSecurityManager.__init__ short_key_env None
       = Raise (ValueError (reason +:+ " for location '" +:+ location +:+ "'")).
Proof.
  apply (faulty_key_fails_construction short_key_env None).
  apply Exists_cons_hd. right; left. vm_compute. reflexivity.
Defined.

(** C6. The roles of a built store: the policy a location resolves to was
    built from the last definition with that normalized name, and its
    authorized roles are that definition's default roles, joined with the
    cleaned entries of its comma-separated role-override variable and with
    "system".  So "system" is always authorized, and the role list that
    [describe_policy] reports holds every default role and "system".
    Conversely the last definition of each normalized name is in the store
    with these roles. *)
Theorem built_store_roles env definitions m :
  AdaptiveSecurityManager.__init__ env definitions = Ok m ->
  (forall location policy,
     AdaptiveSecurityManager._policy_for m location = Ok policy ->
     exists pre name config post,
       AdaptiveSecurityManager.definitions_or_default definitions
       = pre ++ (name, config) :: post
       /\ _normalize_location name = _normalize_location location
       /\ Forall (fun d => _normalize_location d.1 <> _normalize_location location)
            post
       /\ _LocationPolicy.allowed_roles policy
          = default ∅ (Config.default_roles config)
            ∪ parsed_env_roles env config ∪ {[ "system" ]}
       /\ "system" ∈ _LocationPolicy.allowed_roles policy
       /\ exists snap,
            AdaptiveSecurityManager.describe_policy m location = Ok snap
            /\ forall r,
                 r ∈ default ∅ (Config.default_roles config) ∪ {[ "system" ]} ->
                 r ∈ Snapshot.allowed_roles (Snapshot.access_control snap))
  /\ (forall pre name config post,
        AdaptiveSecurityManager.definitions_or_default definitions
        = pre ++ (name, config) :: post ->
        Forall (fun d => _normalize_location d.1 <> _normalize_location name) post ->
        exists policy,
          AdaptiveSecurityManager._policy_for m name = Ok policy
          /\ _LocationPolicy.allowed_roles policy
             = default ∅ (Config.default_roles config)
               ∪ parsed_env_roles env config ∪ {[ "system" ]}).
Proof.
  intros Hinit. split.
  - intros location policy Hp.
    pose proof Hp as Hlookup. apply policy_for_Ok in Hlookup.
    destruct (init_inv _ _ _ Hinit _ _ Hlookup)
      as (pre & name & config & post & f & Hsplit & Hname & Hpost & _ & _ & Hpol).
    assert (_LocationPolicy.allowed_roles policy = spec_allowed_roles env config)
      as Hroles by (rewrite Hpol; apply built_policy_roles).
    exists pre, name, config, post. split_and!; [done | done | done | done | |].
    + rewrite Hroles. unfold spec_allowed_roles.
      apply elem_of_union_r. by apply elem_of_singleton.
    + exists (_LocationPolicy.snapshot policy). split.
      * unfold AdaptiveSecurityManager.describe_policy. by rewrite Hp.
      * intros r Hr. simpl. apply elem_of_sorted. rewrite Hroles.
        unfold spec_allowed_roles.
        apply elem_of_union in Hr as [Hr | Hr];
          [by apply elem_of_union_l, elem_of_union_l | by apply elem_of_union_r].
  - intros pre name config post Hsplit Hpost.
    unfold AdaptiveSecurityManager.__init__ in Hinit.
    destruct (AdaptiveSecurityManager._load_policies _ _ _) as [ps|e] eqn:Hl;
      [simpl in Hinit | done].
    injection Hinit as <-. rewrite Hsplit in Hl.
    destruct (load_policies_last _ _ _ _ _ _ _ Hl Hpost) as [f Hf].
    exists (built_policy env name config f). split.
    + by apply policy_for_Ok.
    + apply built_policy_roles.
Qed.

Lemma built_store_roles_witness :
  "system" ∈ _LocationPolicy.allowed_roles (policy_of roles_env_manager "azure")
  /\ exists snap,
       AdaptiveSecurityManager.describe_policy roles_env_manager " Azure" = Ok snap
       /\ "system" ∈ Snapshot.allowed_roles (Snapshot.access_control snap).
Proof.
  destruct (built_store_roles roles_env None roles_env_manager) as [Hfwd _];
    [vm_compute; reflexivity|].
  destruct (Hfwd " Azure" (policy_of roles_env_manager "azure"))
    as (pre & name & config & post & _ & _ & _ & _ & Hsys & snap & Hsnap & Hsup);
    [vm_compute; reflexivity|].
  split; [exact Hsys|]. exists snap. split; [exact Hsnap|].
  apply Hsup, elem_of_union_r. by apply elem_of_singleton.
Defined.

Example roles_env_azure_roles :
  AdaptiveSecurityManager.allowed_roles roles_env_manager "Azure"
  = Ok ["auditor"; "engineering"; "operations"; "ops"; "system"].
Proof. vm_compute. reflexivity. Qed.

(* ===================================================================== *)
(** ** Introspection *)

Section Introspection.

Lemma snapshot_same_public p1 p2 :
  same_public p1 p2 -> _LocationPolicy.snapshot p1 = _LocationPolicy.snapshot p2.
Proof.
  intros (Hn & Hk & Hs & Hr). unfold _LocationPolicy.snapshot.
  by rewrite Hn, Hk, Hs, Hr.
Qed.

Lemma built_policy_same_public env d1 d2 f1 f2 :
  same_but_key d1 d2 ->
  same_public (built_policy env d1.1 d1.2 f1) (built_policy env d2.1 d2.2 f2).
Proof.
  intros (Hl & Hek & Her & Hdr & Hid). unfold same_public; simpl.
  by rewrite Hl, Hek, Her, Hdr, Hid.
Qed.

Lemma load_policies_same_public env l1 l2 :
  Forall2 same_but_key l1 l2 ->
  forall acc1 acc2 r1 r2,
    (forall k, option_Forall2 same_public (acc1 !! k) (acc2 !! k)) ->
    AdaptiveSecurityManager._load_policies env l1 acc1 = Ok r1 ->
    AdaptiveSecurityManager._load_policies env l2 acc2 = Ok r2 ->
    forall k, option_Forall2 same_public (r1 !! k) (r2 !! k).
Proof.
  induction 1 as [|[n1 c1] [n2 c2] l1 l2 Hd _ IH];
    intros acc1 acc2 r1 r2 Hacc; simpl.
  - by intros [= <-] [= <-].
  - destruct (load_policy env n1 c1) as [[k1 p1]|e1] eqn:H1; [simpl | done].
    destruct (load_policy env n2 c2) as [[k2 p2]|e2] eqn:H2; [simpl | done].
    apply load_policy_inv in H1 as (_ & -> & f1 & _ & ->).
    apply load_policy_inv in H2 as (_ & -> & f2 & _ & ->).
    apply IH. intros k.
    pose proof (built_policy_same_public env (n1, c1) (n2, c2) f1 f2 Hd) as Hp.
    destruct Hd as (Hn & _); simpl in Hn, Hp; subst n2.
    destruct (decide (_normalize_location n1 = k)) as [<- | Hne].
    + rewrite !lookup_insert_eq. by constructor.
    + rewrite !lookup_insert_ne by done. apply Hacc.
Qed.

End Introspection.

(** C9. A snapshot shows the location name, the policy version, the
    algorithm name, the key id, the key source and the sorted allowed roles,
    and nothing of the key: replacing the key object of a policy leaves its
    snapshot unchanged, and two stores built in one environment from
    definitions that differ only in their key text answer [describe_policy]
    alike at every location. *)
Theorem snapshot_hides_key env (l1 l2 : definitions_t) m1 m2 :
  Forall2 same_but_key l1 l2 ->
  AdaptiveSecurityManager.__init__ env (Some l1) = Ok m1 ->
  AdaptiveSecurityManager.__init__ env (Some l2) = Ok m2 ->
  (forall location,
     AdaptiveSecurityManager.describe_policy m1 location
     = AdaptiveSecurityManager.describe_policy m2 location)
  /\ (forall policy f,
        _LocationPolicy.snapshot (with_fernet policy f)
        = _LocationPolicy.snapshot policy)
  /\ (forall policy,
        _LocationPolicy.snapshot policy
        = {| Snapshot.location := _LocationPolicy.name policy;
             Snapshot.policy_version := "2024.1";
             Snapshot.encryption :=
               {| Snapshot.algorithm := "fernet";
                  Snapshot.key_id := _LocationPolicy.key_id policy;
                  Snapshot.key_source := _LocationPolicy.key_source policy |};
             Snapshot.access_control :=
               {| Snapshot.allowed_roles :=
                    Py.sorted (_LocationPolicy.allowed_roles policy) |} |}).
Proof.
  intros Hrel H1 H2. split_and!; [|done|done].
  assert (forall k, option_Forall2 same_public
                      (AdaptiveSecurityManager._policies m1 !! k)
                      (AdaptiveSecurityManager._policies m2 !! k)) as Hsame.
  { destruct Hrel as [|d1 d2 l1 l2 Hd Hrel].
    - rewrite H1 in H2. injection H2 as <-. intros k.
      destruct (_ !! k); by constructor.
    - unfold AdaptiveSecurityManager.__init__ in H1, H2.
      simpl AdaptiveSecurityManager.definitions_or_default in H1, H2.
      destruct (AdaptiveSecurityManager._load_policies env (d1 :: l1) ∅)
        as [r1|] eqn:Hl1; [|done].
      destruct (AdaptiveSecurityManager._load_policies env (d2 :: l2) ∅)
        as [r2|] eqn:Hl2; [|done].
      simpl in H1, H2. injection H1 as <-. injection H2 as <-. simpl.
      apply (load_policies_same_public env (d1 :: l1) (d2 :: l2)
               ltac:(by constructor) ∅ ∅ r1 r2); [|done|done].
      intros k. rewrite !lookup_empty. constructor. }
  intros location.
  unfold AdaptiveSecurityManager.describe_policy,
    AdaptiveSecurityManager._policy_for.
  destruct (Hsame (_normalize_location location)) as [p1 p2 Hp|]; simpl; [|done].
  by rewrite (snapshot_same_public _ _ Hp).
Qed.

Lemma snapshot_hides_key_witness :
  (forall location,
     AdaptiveSecurityManager.describe_policy default_manager location
     = AdaptiveSecurityManager.describe_policy rekeyed_manager location)
  /\ _LocationPolicy.fernet (policy_of default_manager "s3")
     <> _LocationPolicy.fernet (policy_of rekeyed_manager "s3").
Proof.
  split; [|vm_compute; discriminate].
  apply (snapshot_hides_key ∅ _DEFAULT_POLICY_DEFINITIONS rekeyed_definitions
           default_manager rekeyed_manager).
  - repeat constructor.
  - vm_compute. reflexivity.
  - vm_compute. reflexivity.
Defined.

(* ===================================================================== *)
(** ** Worked examples *)

(** The default definitions load in an empty environment. *)
Example default_manager_builds : security_manager ∅ = Ok default_manager.
Proof. vm_compute. reflexivity. Qed.

Example default_locations :
  dom (AdaptiveSecurityManager._policies default_manager)
  = {[ "s3"; "azure"; "gcs" ]}.
Proof. vm_compute. reflexivity. Qed.

(** The scenario of the specification: "engineering" may encrypt at s3, and
    "auditor" is refused with the sorted list of the required roles. *)
Example s3_scenario :
  exists token,
    AdaptiveSecurityManager.encrypt (C := IdealFernet.crypto) default_manager
      "s3" (Some hello) (Some [Some "engineering"]) 1700000000 iv0
    = Ok (Some token)
    /\ AdaptiveSecurityManager.decrypt (C := IdealFernet.crypto) default_manager
         "s3" (Some token) (Some [Some "auditor"])
       = Raise (AuthorizationError
                  "principal lacks roles for s3; required one of ['analytics', 'engineering', 'system']").
Proof. eexists. split; vm_compute; reflexivity. Qed.

(** A key set through the environment is reported as such, and never
    shown. *)
Example shared_key_env_snapshot :
  AdaptiveSecurityManager.describe_policy shared_key_manager "azure"
  = Ok {| Snapshot.location := "azure";
          Snapshot.policy_version := "2024.1";
          Snapshot.encryption :=
            {| Snapshot.algorithm := "fernet";
               Snapshot.key_id := "azure-default";
               Snapshot.key_source := "env:AZURE_ENCRYPTION_KEY" |};
          Snapshot.access_control :=
            {| Snapshot.allowed_roles := ["engineering"; "operations"; "system"] |} |}.
Proof. vm_compute. reflexivity. Qed.

(** The three ways a key is refused. *)
Example coerce_missing :
  _coerce_fernet_key "" "s3"
  = Raise (ValueError "missing encryption key for location 's3'").
Proof. reflexivity. Qed.

Example coerce_invalid :
  _coerce_fernet_key "abcde" "s3"
  = Raise (ValueError "invalid base64 key for location 's3'").
Proof. vm_compute. reflexivity. Qed.

Example coerce_short :
  _coerce_fernet_key " YWJj " "s3"
  = Raise (ValueError "incorrect key length for location 's3'").
Proof. vm_compute. reflexivity. Qed.

(** The decoder on padded, unpadded and noisy input. *)
Example b64_cases :
  map Base64.urlsafe_b64decode_str
    [ "YWJj"; "YWI="; "YQ=="; "YQ"; "Y"; "YQ==YWJj"; "Y W*Jj"; "__--" ]
  = [ Some (Py.encode "abc"); Some (Py.encode "ab"); Some (Py.encode "a");
      None; None; Some (Py.encode "a"); Some (Py.encode "abc");
      Some [ xff; xff; xbe ] ].
Proof. vm_compute. reflexivity. Qed.

(* ===================================================================== *)
(** ** Further properties of the policy module *)

Section Normalization.

Lemma lower_char_idemp (c : ascii) :
  Py.lower_char (Py.lower_char c) = Py.lower_char c.
Proof. destruct c as [[] [] [] [] [] [] [] []]; reflexivity. Qed.

Lemma lower_idemp (s : string) : Py.lower (Py.lower s) = Py.lower s.
Proof.
  induction s as [|c s IH]; simpl; [done|]. by rewrite lower_char_idemp, IH.
Qed.

Lemma lstrip_headed (s : string) : headed (Py.lstrip s).
Proof.
  induction s as [|c s IH]; simpl; [done|].
  destruct (Py.isspace c) eqn:E; [done | by simpl].
Qed.

Lemma headed_lstrip (s : string) : headed s -> Py.lstrip s = s.
Proof. destruct s as [|c s]; simpl; [done|]. by intros ->. Qed.

Lemma rstrip_headed (s : string) : headed s -> headed (Py.rstrip s).
Proof.
  destruct s as [|c s]; simpl; [done|]. intros Hc.
  destruct (Py.rstrip s); simpl; [by rewrite Hc | done].
Qed.

Lemma rstrip_idemp (s : string) : Py.rstrip (Py.rstrip s) = Py.rstrip s.
Proof.
  induction s as [|c s IH]; simpl; [done|].
  destruct (Py.rstrip s) as [|d r] eqn:E.
  - destruct (Py.isspace c) eqn:Hc; simpl; [done | by rewrite Hc].
  - change (Py.rstrip (String c (String d r))) with
      (match Py.rstrip (String d r) with
       | EmptyString =>
           if Py.isspace c then EmptyString else String c EmptyString
       | String a r' => String c (String a r')
       end).
    by rewrite IH.
Qed.

Lemma strip_idemp (s : string) : Py.strip (Py.strip s) = Py.strip s.
Proof.
  unfold Py.strip.
  rewrite (headed_lstrip (Py.rstrip (Py.lstrip s)))
    by apply rstrip_headed, lstrip_headed.
  apply rstrip_idemp.
Qed.

Lemma normalize_location_idemp (s : string) :
  _normalize_location (_normalize_location s) = _normalize_location s.
Proof.
  unfold _normalize_location.
  by rewrite <- (lower_strip (Py.strip s)), strip_idemp, lower_idemp.
Qed.

End Normalization.

Section StoreShape.

(** Where a policy of a loaded store comes from, in terms of the loop
    body itself. *)
Lemma load_policies_origin env defs policies result_map :
  AdaptiveSecurityManager._load_policies env defs policies = Ok result_map ->
  forall key policy, result_map !! key = Some policy ->
    (policies !! key = Some policy
     /\ Forall (fun d => _normalize_location d.1 <> key) defs)
    \/ exists pre location config post,
         defs = pre ++ (location, config) :: post
         /\ Forall (fun d => _normalize_location d.1 <> key) post
         /\ load_policy env location config = Ok (key, policy).
Proof.
  revert policies. induction defs as [|[l c] defs IH]; intros policies; simpl.
  - intros [= <-] key policy Hk. left. by split.
  - destruct (load_policy env l c) as [[k p]|e] eqn:Hl; [simpl | done].
    intros Hrest key policy Hk.
    destruct (IH _ Hrest key policy Hk)
      as [[Hins Hnone] | (pre & l' & c' & post & -> & Hpost & Hl')].
    + pose proof Hl as Hinv.
      apply load_policy_inv in Hinv as (_ & -> & _).
      destruct (decide (_normalize_location l = key)) as [<- | Hne].
      * rewrite lookup_insert_eq in Hins. injection Hins as <-.
        right. exists [], l, c, defs. by split_and!.
      * rewrite lookup_insert_ne in Hins by done.
        left. split; [done|]. by constructor.
    + right. exists ((l, c) :: pre), l', c', post. by split_and!.
Qed.

Lemma init_origin env defs m key policy :
  AdaptiveSecurityManager.__init__ env defs = Ok m ->
  AdaptiveSecurityManager._policies m !! key = Some policy ->
  exists pre location config post,
    AdaptiveSecurityManager.definitions_or_default defs
    = pre ++ (location, config) :: post
    /\ Forall (fun d => _normalize_location d.1 <> key) post
    /\ load_policy env location config = Ok (key, policy).
Proof.
  unfold AdaptiveSecurityManager.__init__.
  destruct (AdaptiveSecurityManager._load_policies _ _ _) as [ps|e] eqn:Hl;
    [simpl | done].
  intros [= <-] Hk; simpl in Hk.
  destruct (load_policies_origin _ _ _ _ Hl key policy Hk) as [[Hempty _] | H];
    [by rewrite lookup_empty in Hempty | done].
Qed.

Lemma size_list_to_set_le (l : list string) :
  (size (list_to_set l : gset string) <= length l)%nat.
Proof.
  induction l as [|x l IH]; simpl; [done|].
  rewrite size_union_alt, size_singleton.
  pose proof (subseteq_size (list_to_set l ∖ {[ x ]}) (list_to_set l : gset string)
                (subseteq_difference_l _ _ _ (reflexivity _))).
  lia.
Qed.

Lemma load_policies_dom env defs policies result_map :
  AdaptiveSecurityManager._load_policies env defs policies = Ok result_map ->
  dom result_map = dom policies ∪ list_to_set (normalized_names defs).
Proof.
  revert policies. induction defs as [|[l c] defs IH]; intros policies; simpl.
  - intros [= <-]. by rewrite (right_id_L ∅ (∪)).
  - destruct (load_policy env l c) as [[k p]|e] eqn:Hl; [simpl | done].
    intros Hrest. apply load_policy_inv in Hl as (_ & -> & _).
    rewrite (IH _ Hrest), dom_insert_L.
    by rewrite (assoc_L (∪)), (comm_L (∪) {[ _ ]} (dom policies)).
Qed.

Lemma load_policies_total env defs policies :
  Forall (fun d => ~ faulty env d) defs ->
  exists result_map,
    AdaptiveSecurityManager._load_policies env defs policies = Ok result_map.
Proof.
  intros Hall. revert policies.
  induction Hall as [|[l c] defs Hd _ IH]; intros policies; simpl; [by eexists|].
  unfold faulty in Hd; simpl in Hd.
  destruct (key_fault (resolved_key env c)) eqn:E; [by destruct Hd; eexists|].
  destruct (load_policy_sound _ l _ E) as (f & _ & ->). simpl. apply IH.
Qed.

End StoreShape.

(** X1. Every key of a built store is a normalized name, equal to the name
    of the policy stored under it, so each policy is found again under its
    own name: by [_policy_for], and by [describe_policy], whose snapshot
    carries that name as its location. *)
Theorem store_keys_are_names env defs m key policy :
  AdaptiveSecurityManager.__init__ env defs = Ok m ->
  AdaptiveSecurityManager._policies m !! key = Some policy ->
  _normalize_location key = key
  /\ _LocationPolicy.name policy = key
  /\ AdaptiveSecurityManager._policy_for m (_LocationPolicy.name policy)
     = Ok policy
  /\ exists snap,
       AdaptiveSecurityManager.describe_policy m (_LocationPolicy.name policy)
       = Ok snap
       /\ Snapshot.location snap = key.
Proof.
  intros Hinit Hk.
  destruct (init_inv _ _ _ Hinit _ _ Hk)
    as (pre & l & c & post & f & _ & Hn & _ & _ & _ & ->).
  simpl. rewrite Hn.
  assert (_normalize_location key = key) as Hfix
    by (rewrite <- Hn; apply normalize_location_idemp).
  assert (AdaptiveSecurityManager._policy_for m key
          = Ok (built_policy env l c f)) as Hp
    by (apply policy_for_Ok; by rewrite Hfix).
  split_and!; [done | done | done |].
  exists (_LocationPolicy.snapshot (built_policy env l c f)). split.
  - unfold AdaptiveSecurityManager.describe_policy. by rewrite Hp.
  - done.
Qed.

Lemma store_keys_are_names_witness :
  _normalize_location "gcs" = "gcs"
  /\ _LocationPolicy.name (policy_of default_manager "gcs") = "gcs"
  /\ AdaptiveSecurityManager._policy_for default_manager
       (_LocationPolicy.name (policy_of default_manager "gcs"))
     = Ok (policy_of default_manager "gcs")
  /\ exists snap,
       AdaptiveSecurityManager.describe_policy default_manager
         (_LocationPolicy.name (policy_of default_manager "gcs"))
       = Ok snap
       /\ Snapshot.location snap = "gcs".
Proof.
  apply (store_keys_are_names ∅ None default_manager "gcs").
  - vm_compute. reflexivity.
  - vm_compute. reflexivity.
Defined.

(** X2. The locations of a built store are exactly the normalized names of
    its definitions: every definition is configured and nothing else is; the
    store is never larger than the list of definitions, and the manager
    keeps the definitions it was built from. *)
Theorem store_locations env defs m :
  AdaptiveSecurityManager.__init__ env defs = Ok m ->
  dom (AdaptiveSecurityManager._policies m)
  = list_to_set
      (normalized_names (AdaptiveSecurityManager.definitions_or_default defs))
  /\ (forall location,
        is_Ok (AdaptiveSecurityManager._policy_for m location) <->
        _normalize_location location
        ∈ normalized_names (AdaptiveSecurityManager.definitions_or_default defs))
  /\ (size (AdaptiveSecurityManager._policies m)
      <= length (AdaptiveSecurityManager.definitions_or_default defs))%nat
  /\ AdaptiveSecurityManager._definitions m
     = AdaptiveSecurityManager.definitions_or_default defs.
Proof.
  unfold AdaptiveSecurityManager.__init__.
  destruct (AdaptiveSecurityManager._load_policies _ _ _) as [ps|e] eqn:Hl;
    [simpl | done].
  intros [= <-]; simpl.
  pose proof (load_policies_dom _ _ _ _ Hl) as Hdom.
  rewrite dom_empty_L, (left_id_L ∅ (∪)) in Hdom.
  split_and!; [done | | | done].
  - intros location. unfold AdaptiveSecurityManager._policy_for; simpl.
    rewrite <- (elem_of_list_to_set (C := gset string)), <- Hdom, elem_of_dom.
    destruct (ps !! _); simpl; split;
      first [done | by eexists | by intros [? ?]].
  - rewrite <- size_dom, Hdom.
    etrans; [apply size_list_to_set_le|].
    unfold normalized_names. by rewrite length_fmap.
Qed.

Lemma store_locations_witness :
  dom (AdaptiveSecurityManager._policies roles_env_manager)
  = list_to_set (normalized_names (AdaptiveSecurityManager.definitions_or_default None))
  /\ (forall location,
        is_Ok (AdaptiveSecurityManager._policy_for roles_env_manager location) <->
        _normalize_location location
        ∈ normalized_names (AdaptiveSecurityManager.definitions_or_default None))
  /\ (size (AdaptiveSecurityManager._policies roles_env_manager)
      <= length (AdaptiveSecurityManager.definitions_or_default None))%nat
  /\ AdaptiveSecurityManager._definitions roles_env_manager
     = AdaptiveSecurityManager.definitions_or_default None.
Proof.
  apply (store_locations roles_env None roles_env_manager).
  vm_compute. reflexivity.
Defined.

Section ConstructionOutcome.

(** The constructor either loads every definition or stops at the first
    faulty key. *)
Lemma init_outcome env defs :
  (Forall (fun d => ~ faulty env d)
     (AdaptiveSecurityManager.definitions_or_default defs)
   /\ is_Ok (AdaptiveSecurityManager.__init__ env defs))
  \/ exists pre location config post reason,
       AdaptiveSecurityManager.definitions_or_default defs
       = pre ++ (location, config) :: post
       /\ Forall (fun d => ~ faulty env d) pre
       /\ key_fault (resolved_key env config) = Some reason
       /\ AdaptiveSecurityManager.__init__ env defs
          = Raise (config_error reason location).
Proof.
  destruct (decide (Exists (faulty env)
                      (AdaptiveSecurityManager.definitions_or_default defs)))
    as [Hex | Hnex].
  - right.
    destruct (first_fault _ _ Hex)
      as (pre & [location config] & post & Hsplit & Hpre & [reason Hreason]).
    simpl in Hreason. exists pre, location, config, post, reason.
    split_and!; [done | done | done |].
    unfold AdaptiveSecurityManager.__init__. rewrite Hsplit.
    by rewrite (load_policies_fault _ _ _ _ _ _ _ Hpre Hreason).
  - left. apply (not_Exists_Forall (faulty env)) in Hnex.
    split; [done|].
    unfold AdaptiveSecurityManager.__init__.
    by destruct (load_policies_total env _ ∅ Hnex) as [ps ->].
Qed.

Lemma load_policy_key env location config key policy :
  load_policy env location config = Ok (key, policy) ->
  exists decoded,
    Base64.urlsafe_b64decode_str (Py.strip (resolved_key env config))
    = Some decoded
    /\ length decoded = 32%nat
    /\ _LocationPolicy.fernet policy
       = Fernet.mk (take 16 decoded) (drop 16 decoded).
Proof.
  unfold load_policy. fold (resolved_key env config).
  unfold _coerce_fernet_key.
  destruct (negb (Py.truthy _)); [done|].
  destruct (Base64.urlsafe_b64decode_str _) as [decoded|] eqn:Hdec; [|done].
  destruct (length decoded =? 32)%nat eqn:Hlen; [simpl | done].
  unfold Base64.urlsafe_b64decode_str in Hdec.
  destruct (Base64.isascii _); [|done].
  unfold Fernet.new. rewrite Hdec, Hlen. simpl. intros [= <- <-].
  exists decoded. apply Nat.eqb_eq in Hlen. by split_and!.
Qed.

End ConstructionOutcome.

(** X3. Construction succeeds exactly when no definition resolves to a
    rejected key: keys that are non-empty and decode, once trimmed, to 32
    bytes always yield a manager. *)
Theorem construction_succeeds_iff env (definitions : option definitions_t) :
  is_Ok (AdaptiveSecurityManager.__init__ env definitions) <->
  Forall (fun d => ~ key_rejected (resolved_key env d.2))
    (AdaptiveSecurityManager.definitions_or_default definitions).
Proof.
  destruct (init_outcome env definitions)
    as [[Hall Hok] | (pre & l & c & post & reason & Hsplit & _ & Hreason & Hraise)].
  - split; [intros _ | done].
    eapply Forall_impl; [exact Hall|]. intros d Hd Hrej.
    by apply Hd, key_rejected_fault.
  - rewrite Hraise, Hsplit. split; [done|]. intros Hall.
    apply Forall_app in Hall as [_ Hall]. apply Forall_cons in Hall as [Hc _].
    apply Hc, key_rejected_fault. by exists reason.
Qed.

(** X4. Every failure of the constructor is the located error of a
    rejected key: the exception is a [ValueError] made of one of the three
    reasons and the location of the first faulty definition.  The unlocated
    error of the [Fernet] constructor never surfaces. *)
Theorem construction_failure_is_located env (definitions : option definitions_t) e :
  AdaptiveSecurityManager.__init__ env definitions = Raise e ->
  e <> Fernet.key_error
  /\ exists pre location config post reason,
       AdaptiveSecurityManager.definitions_or_default definitions
       = pre ++ (location, config) :: post
       /\ Forall (fun d => ~ key_rejected (resolved_key env d.2)) pre
       /\ key_rejected (resolved_key env config)
       /\ reason ∈ config_reasons
       /\ e = ValueError (reason +:+ " for location '" +:+ location +:+ "'").
Proof.
  intros Hraise.
  destruct (init_outcome env definitions)
    as [[_ Hok] | (pre & l & c & post & reason & Hsplit & Hpre & Hreason & Hr)].
  - by rewrite Hraise in Hok.
  - rewrite Hraise in Hr. injection Hr as ->.
    pose proof (key_fault_reason _ _ Hreason) as Hin. split.
    + unfold config_error, Fernet.key_error, config_reasons in *.
      repeat (apply elem_of_cons in Hin as [-> | Hin]); [done | done | done |].
      by apply elem_of_nil in Hin.
    + exists pre, l, c, post, reason. split_and!; [done | | | done | done].
      * eapply Forall_impl; [exact Hpre|]. intros d Hd Hrej.
        by apply Hd, key_rejected_fault.
      * apply key_rejected_fault. by exists reason.
Qed.

Lemma construction_failure_is_located_witness :
  exists e,
    AdaptiveSecurityManager.__init__ short_key_env None = Raise e
    /\ e <> Fernet.key_error
    /\ exists pre location config post reason,
         AdaptiveSecurityManager.definitions_or_default None
         = pre ++ (location, config) :: post
         /\ Forall (fun d => ~ key_rejected (resolved_key short_key_env d.2)) pre
         /\ key_rejected (resolved_key short_key_env config)
         /\ reason ∈ config_reasons
         /\ e = ValueError (reason +:+ " for location '" +:+ location +:+ "'").
Proof.
  exists (ValueError "invalid base64 key for location 's3'").
  assert (AdaptiveSecurityManager.__init__ short_key_env None
          = Raise (ValueError "invalid base64 key for location 's3'")) as H
    by (vm_compute; reflexivity).
  split; [exact H|].
  exact (construction_failure_is_located short_key_env None _ H).
Defined.

(** X5. Key provenance in a built store.  The policy a location resolves
    to holds, as the two halves of its key object, the 32 bytes that the
    trimmed key text of its (last) definition decodes to.  Its key source is
    "env:" followed by the override variable exactly when that variable is
    set to a non-empty value, whose text is then the key; otherwise it is
    "default" and the key is the built-in text.  Its key id is the
    definition's, or the normalized name followed by "-default". *)
Theorem key_provenance env definitions m location policy :
  AdaptiveSecurityManager.__init__ env definitions = Ok m ->
  AdaptiveSecurityManager._policy_for m location = Ok policy ->
  exists pre name config post decoded,
    AdaptiveSecurityManager.definitions_or_default definitions
    = pre ++ (name, config) :: post
    /\ _normalize_location name = _normalize_location location
    /\ Forall (fun d => _normalize_location d.1 <> _normalize_location location)
         post
    /\ Base64.urlsafe_b64decode_str (Py.strip (resolved_key env config))
       = Some decoded
    /\ length decoded = 32%nat
    /\ Fernet._signing_key (_LocationPolicy.fernet policy)
       ++ Fernet._encryption_key (_LocationPolicy.fernet policy) = decoded
    /\ _LocationPolicy.key_id policy
       = Py.or_else (Config.key_id config)
           (_normalize_location location +:+ "-default")
    /\ (let var := Py.or_else (Config.env_key config) "" in
        (exists value,
           getenv env var = Some value /\ value <> ""
           /\ resolved_key env config = value
           /\ _LocationPolicy.key_source policy = "env:" +:+ var)
        \/ ((getenv env var = None \/ getenv env var = Some "")
            /\ resolved_key env config
               = Py.or_else (Config.default_key config) ""
            /\ _LocationPolicy.key_source policy = "default")).
Proof.
  intros Hinit Hp. apply policy_for_Ok in Hp.
  destruct (init_origin _ _ _ _ _ Hinit Hp)
    as (pre & name & config & post & Hsplit & Hpost & Hload).
  destruct (load_policy_key _ _ _ _ _ Hload) as (decoded & Hdec & Hlen & Hf).
  apply load_policy_inv in Hload as (_ & Hname & f & _ & Hpol).
  exists pre, name, config, post, decoded.
  split_and!; [done | done | done | done | done | | |].
  - rewrite Hf; simpl. apply take_drop.
  - rewrite Hpol; simpl. by rewrite <- Hname.
  - rewrite Hpol; simpl. unfold resolved_key, getenv_truthy.
    destruct (getenv env _) as [value|] eqn:Hget; simpl.
    + destruct value as [|c value]; simpl.
      * right. by split_and!; [right | |].
      * left. exists (String c value). by split_and!.
    + right. by split_and!; [left | |].
Qed.

Lemma key_provenance_witness :
  exists pre name config post decoded,
    AdaptiveSecurityManager.definitions_or_default None
    = pre ++ (name, config) :: post
    /\ _normalize_location name = _normalize_location "Azure"
    /\ Forall (fun d => _normalize_location d.1 <> _normalize_location "Azure")
         post
    /\ Base64.urlsafe_b64decode_str (Py.strip (resolved_key shared_key_env config))
       = Some decoded
    /\ length decoded = 32%nat
    /\ Fernet._signing_key
         (_LocationPolicy.fernet (policy_of shared_key_manager "azure"))
       ++ Fernet._encryption_key
            (_LocationPolicy.fernet (policy_of shared_key_manager "azure"))
       = decoded
    /\ _LocationPolicy.key_id (policy_of shared_key_manager "azure")
       = Py.or_else (Config.key_id config)
           (_normalize_location "Azure" +:+ "-default")
    /\ (let var := Py.or_else (Config.env_key config) "" in
        (exists value,
           getenv shared_key_env var = Some value /\ value <> ""
           /\ resolved_key shared_key_env config = value
           /\ _LocationPolicy.key_source (policy_of shared_key_manager "azure")
              = "env:" +:+ var)
        \/ ((getenv shared_key_env var = None
             \/ getenv shared_key_env var = Some "")
            /\ resolved_key shared_key_env config
               = Py.or_else (Config.default_key config) ""
            /\ _LocationPolicy.key_source (policy_of shared_key_manager "azure")
               = "default")).
Proof.
  apply (key_provenance shared_key_env None shared_key_manager "Azure").
  - vm_compute. reflexivity.
  - vm_compute. reflexivity.
Defined.

(** X6. Provisioner and cipher constructor agree: the key bytes that
    [_coerce_fernet_key] returns are the encoded trimmed text, and
    [Fernet] always accepts them, splitting the 32 decoded bytes into two
    halves of 16. *)
Theorem coerce_then_fernet (raw_key location : string) (key : list byte) :
  _coerce_fernet_key raw_key location = Ok key ->
  key = Py.encode (Py.strip raw_key)
  /\ exists f decoded,
       Fernet.new key = Ok f
       /\ Base64.urlsafe_b64decode key = Some decoded
       /\ length decoded = 32%nat
       /\ Fernet._signing_key f ++ Fernet._encryption_key f = decoded
       /\ Fernet.wf f.
Proof.
  unfold _coerce_fernet_key.
  destruct (negb (Py.truthy raw_key)); [done|].
  destruct (Base64.urlsafe_b64decode_str _) as [decoded|] eqn:Hdec; [|done].
  destruct (length decoded =? 32)%nat eqn:Hlen; [simpl | done].
  intros [= <-]. split; [done|].
  unfold Base64.urlsafe_b64decode_str in Hdec.
  destruct (Base64.isascii _); [|done].
  unfold Fernet.new. rewrite Hdec, Hlen. apply Nat.eqb_eq in Hlen.
  eexists _, decoded. split_and!; [done | done | done | apply take_drop |].
  unfold Fernet.wf; simpl. rewrite length_take, length_drop. lia.
Qed.

Lemma coerce_then_fernet_witness :
  Py.encode "  0-BIKqiBt__oUvQx41iC89SdJpAis6ruT5mHWZn5d50= "
  <> Py.encode (Py.strip "  0-BIKqiBt__oUvQx41iC89SdJpAis6ruT5mHWZn5d50= ")
  /\ exists f decoded,
       Fernet.new (Py.encode "0-BIKqiBt__oUvQx41iC89SdJpAis6ruT5mHWZn5d50=") = Ok f
       /\ Base64.urlsafe_b64decode
            (Py.encode "0-BIKqiBt__oUvQx41iC89SdJpAis6ruT5mHWZn5d50=")
          = Some decoded
       /\ length decoded = 32%nat
       /\ Fernet._signing_key f ++ Fernet._encryption_key f = decoded
       /\ Fernet.wf f.
Proof.
  split; [vm_compute; discriminate|].
  destruct (coerce_then_fernet "  0-BIKqiBt__oUvQx41iC89SdJpAis6ruT5mHWZn5d50= "
              "azure" (Py.encode "0-BIKqiBt__oUvQx41iC89SdJpAis6ruT5mHWZn5d50="))
    as [_ H]; [vm_compute; reflexivity | exact H].
Defined.

(** X7. White space around a key is ignored, but a key of white space
    only is not taken for a missing one: it is refused for its length. *)
Theorem key_whitespace (raw_key location : string) :
  (Py.strip raw_key <> "" ->
   _coerce_fernet_key raw_key location
   = _coerce_fernet_key (Py.strip raw_key) location)
  /\ (raw_key <> "" -> Py.strip raw_key = "" ->
      _coerce_fernet_key raw_key location
      = Raise (ValueError ("incorrect key length for location '"
                           +:+ location +:+ "'")))
  /\ (raw_key = "" ->
      _coerce_fernet_key raw_key location
      = Raise (ValueError ("missing encryption key for location '"
                           +:+ location +:+ "'"))).
Proof.
  split_and!.
  - intros Hne. unfold _coerce_fernet_key. rewrite strip_idemp.
    assert (Py.truthy (Py.strip raw_key) = true) as -> by by apply truthy_iff.
    assert (Py.truthy raw_key = true) as ->; [|done].
    apply truthy_iff. intros ->. by apply Hne.
  - intros Hne Hblank. unfold _coerce_fernet_key. rewrite Hblank.
    apply truthy_iff in Hne. by rewrite Hne.
  - by intros ->.
Qed.

Lemma key_whitespace_witness :
  _coerce_fernet_key "   " "s3"
  = Raise (ValueError "incorrect key length for location 's3'")
  /\ _coerce_fernet_key " FNLdlBuOKy23fIzUTBSHXjhJsfIgSkikUSU3mWk50oo= " "gcs"
     = _coerce_fernet_key "FNLdlBuOKy23fIzUTBSHXjhJsfIgSkikUSU3mWk50oo=" "gcs".
Proof.
  destruct (key_whitespace "   " "s3") as (_ & Hblank & _).
  destruct (key_whitespace " FNLdlBuOKy23fIzUTBSHXjhJsfIgSkikUSU3mWk50oo= " "gcs")
    as (Hstrip & _).
  split.
  - apply Hblank; [discriminate | reflexivity].
  - rewrite Hstrip; [reflexivity | vm_compute; discriminate].
Defined.

Section RoleFacts.

Lemma lower_strip_idemp (s : string) :
  Py.lower (Py.strip (Py.lower (Py.strip s))) = Py.lower (Py.strip s).
Proof. apply normalize_location_idemp. Qed.

Lemma clean_roles_ext (l l' : list (option string)) :
  (forall r, Some r ∈ l <-> Some r ∈ l') -> clean_roles l = clean_roles l'.
Proof.
  intros Hext. apply set_eq. intros x. rewrite !elem_of_clean_roles.
  split; intros [Hne (r & Hin & ->)]; (split; [done|]); exists r;
    (split; [by apply Hext | done]).
Qed.

Lemma clean_roles_app (l l' : list (option string)) :
  clean_roles (l ++ l') = clean_roles l ∪ clean_roles l'.
Proof.
  apply set_eq. intros x.
  rewrite elem_of_union, !elem_of_clean_roles. split.
  - intros [Hne (r & Hin & ->)]. apply elem_of_app in Hin as [Hin | Hin];
      [left | right]; eauto.
  - intros [[Hne (r & Hin & ->)] | [Hne (r & Hin & ->)]];
      (split; [done|]); exists r; (split; [|done]); apply elem_of_app; auto.
Qed.

Lemma normalize_roles_elem (roles : principal_roles_t) (x : string) :
  x ∈ _normalize_roles roles -> x <> "" /\ Py.lower (Py.strip x) = x.
Proof.
  assert ("system" <> "" /\ Py.lower (Py.strip "system") = "system") as Hsys
    by (split; [discriminate | reflexivity]).
  destruct roles as [l|].
  - rewrite normalize_roles_Some. case_decide.
    + by intros ->%elem_of_singleton.
    + intros [Hne (r & _ & ->)]%elem_of_clean_roles. split; [done|].
      apply lower_strip_idemp.
  - simpl. by intros ->%elem_of_singleton.
Qed.

End RoleFacts.

(** X8. The normalized roles are never empty, hold only non-empty strings
    that are already trimmed and lowercased, and normalizing them again
    changes nothing. *)
Theorem normalize_roles_stable (roles : principal_roles_t) :
  _normalize_roles roles <> ∅
  /\ (forall x, x ∈ _normalize_roles roles ->
        x <> "" /\ Py.lower (Py.strip x) = x)
  /\ _normalize_roles (Some (Some <$> elements (_normalize_roles roles)))
     = _normalize_roles roles.
Proof.
  split_and!.
  - apply normalize_roles_nonempty.
  - apply normalize_roles_elem.
  - assert (clean_roles (Some <$> elements (_normalize_roles roles))
            = _normalize_roles roles) as Hclean.
    { apply set_eq. intros x. rewrite elem_of_clean_roles. split.
      - intros [Hne (r & Hin & ->)].
        apply list_elem_of_fmap in Hin as (r' & [= <-] & Hin).
        apply elem_of_elements in Hin.
        by rewrite (proj2 (normalize_roles_elem _ _ Hin)).
      - intros Hx. destruct (normalize_roles_elem _ _ Hx) as [Hne Hfix].
        split; [done|]. exists x. split; [|done].
        apply list_elem_of_fmap. exists x. split; [done|].
        by apply elem_of_elements. }
    rewrite normalize_roles_Some, Hclean.
    rewrite decide_False; [done | apply normalize_roles_nonempty].
Qed.

(** X9. Only the set of roles presented matters: two role sequences with
    the same items, in any order and with any repetition, normalize alike
    and are authorized alike by every policy. *)
Theorem roles_order_irrelevant (l l' : list (option string)) policy :
  (forall r, r ∈ l <-> r ∈ l') ->
  _normalize_roles (Some l) = _normalize_roles (Some l')
  /\ _LocationPolicy.authorize policy (Some l)
     = _LocationPolicy.authorize policy (Some l').
Proof.
  intros Hext.
  assert (_normalize_roles (Some l) = _normalize_roles (Some l')) as Heq.
  { rewrite !normalize_roles_Some.
    by rewrite (clean_roles_ext l l') by (intros r; apply Hext). }
  split; [done|]. unfold _LocationPolicy.authorize. by rewrite Heq.
Qed.

Lemma roles_order_irrelevant_witness :
  _normalize_roles (Some [Some "ops"; None; Some " Dev"; Some "ops"])
  = _normalize_roles (Some [Some " Dev"; Some "ops"; None])
  /\ _LocationPolicy.authorize (policy_of default_manager "s3")
       (Some [Some "ops"; None; Some " Dev"; Some "ops"])
     = _LocationPolicy.authorize (policy_of default_manager "s3")
         (Some [Some " Dev"; Some "ops"; None]).
Proof.
  apply (roles_order_irrelevant [Some "ops"; None; Some " Dev"; Some "ops"]
           [Some " Dev"; Some "ops"; None]).
  intros r. rewrite !elem_of_cons, !elem_of_nil. tauto.
Defined.

(** X10. Authorization is monotone on role collections that hold at least
    one real role: once such a collection is authorized, adding roles before
    or after it keeps it authorized. *)
Theorem authorize_monotone policy (l extra : list (option string)) :
  clean_roles l <> ∅ ->
  _LocationPolicy.authorize policy (Some l) = Ok tt ->
  _LocationPolicy.authorize policy (Some (l ++ extra)) = Ok tt
  /\ _LocationPolicy.authorize policy (Some (extra ++ l)) = Ok tt.
Proof.
  intros Hne Hauth. apply authorize_Ok in Hauth.
  rewrite normalize_roles_Some, decide_False in Hauth by done.
  apply set_choose_L in Hauth as [x [Hx Hallowed]%elem_of_intersection].
  assert (forall l', clean_roles l ⊆ clean_roles l' ->
            _LocationPolicy.authorize policy (Some l') = Ok tt) as Hmono.
  { intros l' Hsub. apply authorize_Ok.
    assert (x ∈ clean_roles l') as Hx' by by apply Hsub.
    rewrite normalize_roles_Some, decide_False.
    - intros Hempty. apply (not_elem_of_empty (C := gset string) x).
      rewrite <- Hempty. by apply elem_of_intersection.
    - intros Hempty. apply (not_elem_of_empty (C := gset string) x).
      by rewrite <- Hempty. }
  split; apply Hmono; rewrite clean_roles_app.
  - apply union_subseteq_l.
  - apply union_subseteq_r.
Qed.

Lemma authorize_monotone_witness :
  _LocationPolicy.authorize (policy_of default_manager "gcs")
    (Some ([Some "Compliance"] ++ [Some "auditor"; None])) = Ok tt
  /\ _LocationPolicy.authorize (policy_of default_manager "gcs")
       (Some ([Some "auditor"; None] ++ [Some "Compliance"])) = Ok tt.
Proof.
  apply (authorize_monotone (policy_of default_manager "gcs")
           [Some "Compliance"] [Some "auditor"; None]).
  - vm_compute. discriminate.
  - vm_compute. reflexivity.
Defined.

(** X11. The fall-back to "system" makes authorization non-monotone at
    the empty collection: in a built store, a collection with no real role is
    authorized everywhere, yet adding to it one role that the policy does not
    allow gets it refused. *)
Theorem empty_roles_outrank_unknown_role env defs m location policy
    (l : list (option string)) (r : string) :
  AdaptiveSecurityManager.__init__ env defs = Ok m ->
  AdaptiveSecurityManager._policy_for m location = Ok policy ->
  clean_roles l = ∅ ->
  Py.lower (Py.strip r) <> "" ->
  Py.lower (Py.strip r) ∉ _LocationPolicy.allowed_roles policy ->
  _LocationPolicy.authorize policy (Some l) = Ok tt
  /\ _LocationPolicy.authorize policy (Some (l ++ [Some r]))
     = Raise (authorization_error (_LocationPolicy.name policy)
                (_LocationPolicy.allowed_roles policy)).
Proof.
  intros Hinit Hp Hl Hr Hnot.
  destruct (built_store_policy _ _ _ _ _ Hinit Hp) as (_ & _ & Hsys).
  split.
  - apply authorize_Ok. rewrite normalize_roles_Some, decide_True by done.
    intros Hempty. apply (not_elem_of_empty (C := gset string) "system").
    rewrite <- Hempty. apply elem_of_intersection.
    split; [by apply elem_of_singleton | done].
  - apply authorize_Raise.
    assert (clean_roles (l ++ [Some r]) = {[ Py.lower (Py.strip r) ]}) as Hc.
    { rewrite clean_roles_app, Hl, (left_id_L ∅ (∪)).
      apply set_eq. intros x. rewrite elem_of_clean_roles, elem_of_singleton.
      split.
      - intros [_ (r' & Hin & ->)].
        apply list_elem_of_singleton in Hin. by injection Hin as ->.
      - intros ->. split; [done|]. exists r. split; [|done].
        by apply list_elem_of_singleton. }
    rewrite normalize_roles_Some, Hc.
    rewrite decide_False by apply non_empty_singleton_L.
    apply set_eq. intros x.
    rewrite elem_of_intersection, elem_of_singleton.
    split; [intros [-> Hx]; by destruct Hnot | intros Hx].
    by apply not_elem_of_empty in Hx.
Qed.

Lemma empty_roles_outrank_unknown_role_witness :
  _LocationPolicy.authorize (policy_of default_manager "s3") (Some [Some " "]) = Ok tt
  /\ _LocationPolicy.authorize (policy_of default_manager "s3")
       (Some ([Some " "] ++ [Some "Auditor"]))
     = Raise (authorization_error
                (_LocationPolicy.name (policy_of default_manager "s3"))
                (_LocationPolicy.allowed_roles (policy_of default_manager "s3"))).
Proof.
  apply (empty_roles_outrank_unknown_role ∅ None default_manager "s3").
  - vm_compute. reflexivity.
  - vm_compute. reflexivity.
  - vm_compute. reflexivity.
  - vm_compute. discriminate.
  - refine (bool_decide_unpack _ _). vm_compute. exact I.
Defined.

(** X12. [allowed_roles] reports what [describe_policy] reports: the same
    role list, or the same lookup error.  The list is in ascending order,
    without repetition, holds exactly the allowed roles of the policy, and in
    a built store it holds "system". *)
Theorem introspection_agrees m location :
  match AdaptiveSecurityManager.describe_policy m location with
  | Ok snap =>
      AdaptiveSecurityManager.allowed_roles m location
      = Ok (Snapshot.allowed_roles (Snapshot.access_control snap))
  | Raise e => AdaptiveSecurityManager.allowed_roles m location = Raise e
  end
  /\ (forall roles,
        AdaptiveSecurityManager.allowed_roles m location = Ok roles ->
        Sorted String.le roles /\ NoDup roles
        /\ exists policy,
             AdaptiveSecurityManager._policy_for m location = Ok policy
             /\ (forall r, r ∈ roles <-> r ∈ _LocationPolicy.allowed_roles policy)
             /\ (forall env defs,
                   AdaptiveSecurityManager.__init__ env defs = Ok m ->
                   "system" ∈ roles)).
Proof.
  unfold AdaptiveSecurityManager.describe_policy,
    AdaptiveSecurityManager.allowed_roles.
  destruct (AdaptiveSecurityManager._policy_for m location) as [p|e] eqn:Hp;
    simpl; (split; [done|]); [|done].
  intros roles [= <-]. split_and!; [apply sorted_Sorted | apply sorted_NoDup |].
  exists p. split_and!; [done | intros r; apply elem_of_sorted |].
  intros env defs Hinit. apply elem_of_sorted.
  by destruct (built_store_policy _ _ _ _ _ Hinit Hp) as (_ & _ & Hsys).
Qed.

(** X13. What a cryptographic call can come back with.  [encrypt] of a
    present payload returns a token only at a configured location and to
    authorized roles, and the token is the cipher's, under that location's
    key; [decrypt] returns a plaintext only under the same conditions and
    only if the cipher accepts the token; neither returns absent.  A failure
    of [decrypt] is the lookup error, else the authorization error, else the
    decryption error naming the policy: roles are checked before the token is
    looked at. *)
Theorem crypto_outcomes (C : FernetCrypto) m location (data : list byte)
    roles now iv :
  (forall r,
     AdaptiveSecurityManager.encrypt m location (Some data) roles now iv = Ok r ->
     exists policy,
       AdaptiveSecurityManager._policy_for m location = Ok policy
       /\ _normalize_roles roles ∩ _LocationPolicy.allowed_roles policy <> ∅
       /\ r = Some (fernet_encrypt (_LocationPolicy.fernet policy) now iv data))
  /\ (forall r,
        AdaptiveSecurityManager.decrypt m location (Some data) roles = Ok r ->
        exists policy plaintext,
          AdaptiveSecurityManager._policy_for m location = Ok policy
          /\ _normalize_roles roles ∩ _LocationPolicy.allowed_roles policy <> ∅
          /\ fernet_decrypt (_LocationPolicy.fernet policy) data = Some plaintext
          /\ r = Some plaintext)
  /\ (forall e,
        AdaptiveSecurityManager.decrypt m location (Some data) roles = Raise e ->
        (AdaptiveSecurityManager._policy_for m location = Raise e
         /\ e = lookup_error location)
        \/ exists policy,
             AdaptiveSecurityManager._policy_for m location = Ok policy
             /\ ((_normalize_roles roles ∩ _LocationPolicy.allowed_roles policy = ∅
                  /\ e = authorization_error (_LocationPolicy.name policy)
                           (_LocationPolicy.allowed_roles policy))
                 \/ (_normalize_roles roles
                       ∩ _LocationPolicy.allowed_roles policy <> ∅
                     /\ fernet_decrypt (_LocationPolicy.fernet policy) data = None
                     /\ e = EncryptionError
                              ("failed to decrypt payload from "
                               +:+ _LocationPolicy.name policy)))).
Proof.
  unfold AdaptiveSecurityManager.encrypt, AdaptiveSecurityManager.decrypt.
  destruct (AdaptiveSecurityManager._policy_for m location) as [p|e0] eqn:Hp;
    simpl.
  - unfold _LocationPolicy.authorize, authorization_error.
    case_decide as Hroles; simpl.
    + split_and!; [done | done |].
      intros e [= <-]. right. exists p. split; [done|]. by left.
    + split_and!.
      * intros r [= <-]. by exists p.
      * intros r Hr. destruct (fernet_decrypt _ _) as [pt|] eqn:Hd; [|done].
        injection Hr as <-. by exists p, pt.
      * intros e He. destruct (fernet_decrypt _ _) as [pt|] eqn:Hd; [done|].
        injection He as <-. right. exists p. split; [done|]. by right.
  - split_and!; [done | done |]. intros e [= <-]. left.
    by apply policy_for_Raise in Hp as [_ ->].
Qed.

(* ===================================================================== *)
(** ** The mover *)

Section MoverFacts.
Context `{SC : Mover.StorageClients} {C : FernetCrypto}.

Lemma eqb_locations (s : string) :
  s ∉ Mover.locations ->
  String.eqb s "s3" = false /\ String.eqb s "azure" = false
  /\ String.eqb s "gcs" = false.
Proof.
  unfold Mover.locations. intros Hnot.
  split_and!; apply String.eqb_neq; intros ->; apply Hnot;
    repeat first [apply list_elem_of_here | apply list_elem_of_further].
Qed.

Lemma locations_cases (s : string) :
  s ∈ Mover.locations -> s = "s3" \/ s = "azure" \/ s = "gcs".
Proof.
  unfold Mover.locations. rewrite !elem_of_cons, elem_of_nil. tauto.
Qed.

Lemma get_source_unknown env obj_key src w :
  src ∉ Mover.locations ->
  Mover.get_source env obj_key src w
  = (Mover.Fail (Mover.Exn (ValueError "unknown src")), w).
Proof.
  intros (H1 & H2 & H3)%eqb_locations. unfold Mover.get_source.
  by rewrite H1, H2, H3.
Qed.


(** The module's manager configures the three locations of the mover,
    whatever the environment it was built in. *)
Lemma singleton_location env m location :
  security_manager env = Ok m ->
  location ∈ Mover.locations ->
  exists policy,
    AdaptiveSecurityManager._policy_for m location = Ok policy
    /\ _LocationPolicy.name policy = location
    /\ Fernet.wf (_LocationPolicy.fernet policy)
    /\ "system" ∈ _LocationPolicy.allowed_roles policy.
Proof.
  intros Hinit Hloc.
  assert (is_Some (AdaptiveSecurityManager._policies m
                     !! _normalize_location location)) as [p Hp].
  { unfold security_manager, AdaptiveSecurityManager.__init__ in Hinit.
    destruct (AdaptiveSecurityManager._load_policies _ _ _) as [ps|e] eqn:Hl;
      [simpl in Hinit | done].
    injection Hinit as <-. simpl.
    apply elem_of_dom. rewrite (load_policies_dom _ _ _ _ Hl).
    apply elem_of_union_r, elem_of_list_to_set.
    apply locations_cases in Hloc as [-> | [-> | ->]]; vm_compute;
      repeat first [apply list_elem_of_here | apply list_elem_of_further]. }
  apply policy_for_Ok in Hp. exists p.
  destruct (built_store_policy _ _ _ _ _ Hinit Hp) as (Hname & Hwf & Hsys).
  split_and!; [done | | done | done].
  rewrite Hname.
  by apply locations_cases in Hloc as [-> | [-> | ->]].
Qed.

End MoverFacts.

Section MoverSteps.
Context `{SC : Mover.StorageClients} {C : FernetCrypto}.

Lemma decrypt_Ok_inv m location data roles r :
  AdaptiveSecurityManager.decrypt m location (Some data) roles = Ok r ->
  exists policy plaintext,
    AdaptiveSecurityManager._policy_for m location = Ok policy
    /\ _LocationPolicy.authorize policy roles = Ok tt
    /\ fernet_decrypt (_LocationPolicy.fernet policy) data = Some plaintext
    /\ r = Some plaintext.
Proof.
  unfold AdaptiveSecurityManager.decrypt.
  destruct (AdaptiveSecurityManager._policy_for m location) as [p|] eqn:Hp;
    [simpl | done].
  destruct (_LocationPolicy.authorize p roles) as [[]|] eqn:Ha; [simpl | done].
  destruct (fernet_decrypt _ _) as [pt|] eqn:Hd; [|done].
  intros [= <-]. by exists p, pt.
Qed.

Lemma encrypt_Ok_inv m location data roles now iv r :
  AdaptiveSecurityManager.encrypt m location (Some data) roles now iv = Ok r ->
  exists policy,
    AdaptiveSecurityManager._policy_for m location = Ok policy
    /\ _LocationPolicy.authorize policy roles = Ok tt
    /\ r = Some (fernet_encrypt (_LocationPolicy.fernet policy) now iv data).
Proof.
  unfold AdaptiveSecurityManager.encrypt.
  destruct (AdaptiveSecurityManager._policy_for m location) as [p|] eqn:Hp;
    [simpl | done].
  destruct (_LocationPolicy.authorize p roles) as [[]|] eqn:Ha; [simpl | done].
  intros [= <-]. by exists p.
Qed.

Lemma authorize_system policy :
  "system" ∈ _LocationPolicy.allowed_roles policy ->
  _LocationPolicy.authorize policy (Some [Some "system"]) = Ok tt.
Proof.
  intros Hsys. apply authorize_Ok.
  assert (_normalize_roles (Some [Some "system"]) = {[ "system" ]}) as ->
    by (vm_compute; reflexivity).
  intros Hempty. apply (not_elem_of_empty (C := gset string) "system").
  rewrite <- Hempty. apply elem_of_intersection.
  split; [by apply elem_of_singleton | done].
Qed.

(** A move that returns normally went through all five steps. *)
Lemma move_Done_inv env m obj_key src dst roles now iv w w' :
  Mover.move_object env m obj_key src dst roles now iv w = (Mover.Done tt, w') ->
  exists data plaintext token w1 w2,
    Mover.get_source env obj_key src w = (Mover.Done (Some data), w1)
    /\ AdaptiveSecurityManager.decrypt m src (Some data)
         (Mover.roles_or_system roles) = Ok (Some plaintext)
    /\ AdaptiveSecurityManager.encrypt m dst (Some plaintext)
         (Mover.roles_or_system roles) now iv = Ok (Some token)
    /\ Mover.put_destination env obj_key dst (Some token) w1 = (Mover.Done tt, w2)
    /\ Mover.delete_source env obj_key src w2 = (Mover.Done tt, w').
Proof.
  unfold Mover.move_object, Mover.bind.
  destruct (Mover.get_source env obj_key src w) as [[[data|]|e] w1] eqn:Hget;
    [|done..].
  destruct (AdaptiveSecurityManager.decrypt m src (Some data) _) as [r|e] eqn:Hdec;
    simpl; [|done].
  destruct (decrypt_Ok_inv _ _ _ _ _ Hdec) as (p & pt & _ & _ & _ & ->).
  unfold Mover.ret.
  destruct (AdaptiveSecurityManager.encrypt m dst (Some pt) _ now iv)
    as [r|e] eqn:Henc; simpl; [|done].
  destruct (encrypt_Ok_inv _ _ _ _ _ _ _ Henc) as (p' & _ & _ & ->).
  unfold Mover.ret.
  destruct (Mover.put_destination env obj_key dst _ w1) as [[[]|e] w2] eqn:Hput;
    [|done].
  intros Hdel. by eexists data, pt, _, w1, w2.
Qed.

End MoverSteps.

(** X14. [move_object] compares the source name as written, against
    "s3", "azure" and "gcs": any other spelling, even one the policy store
    would resolve, is refused with [ValueError]("unknown src") before any
    store is touched. *)
Theorem move_unknown_source (SC : Mover.StorageClients) (C : FernetCrypto)
    env m obj_key src dst roles now iv (w : Mover.world) :
  src ∉ Mover.locations ->
  Mover.move_object env m obj_key src dst roles now iv w
  = (Mover.Fail (Mover.Exn (ValueError "unknown src")), w).
Proof.
  intros Hsrc. unfold Mover.move_object, Mover.bind.
  by rewrite (get_source_unknown _ _ _ _ Hsrc).
Qed.

Lemma move_unknown_source_witness :
  is_Ok (AdaptiveSecurityManager._policy_for default_manager "S3")
  /\ Mover.move_object (SC := MemoryClients.clients) (C := IdealFernet.crypto)
       ∅ default_manager "a.txt" "S3" "gcs" None 1700000001 iv0
       MemoryClients.seeded
     = (Mover.Fail (Mover.Exn (ValueError "unknown src")), MemoryClients.seeded).
Proof.
  split; [vm_compute; exact I|].
  apply (move_unknown_source MemoryClients.clients IdealFernet.crypto).
  unfold Mover.locations. rewrite !elem_of_cons, elem_of_nil.
  intros [H | [H | [H | []]]]; discriminate H.
Defined.

(** X15. When the source store answers that the object is absent,
    [move_object] raises [FileNotFoundError] naming the object and the
    source; the stores are as the read left them. *)
Theorem move_missing_object (SC : Mover.StorageClients) (C : FernetCrypto)
    env m obj_key src dst roles now iv (w w1 : Mover.world) :
  Mover.get_source env obj_key src w = (Mover.Done None, w1) ->
  Mover.move_object env m obj_key src dst roles now iv w
  = (Mover.Fail (Mover.FileNotFoundError (obj_key +:+ " not found in " +:+ src)),
     w1).
Proof.
  intros Hget. unfold Mover.move_object, Mover.bind. by rewrite Hget.
Qed.

Lemma move_missing_object_witness :
  Mover.move_object (SC := MemoryClients.clients) (C := IdealFernet.crypto)
    ∅ default_manager "b.txt" "azure" "gcs" None 1700000001 iv0
    MemoryClients.seeded
  = (Mover.Fail (Mover.FileNotFoundError "b.txt not found in azure"),
     MemoryClients.seeded).
Proof.
  apply (move_missing_object MemoryClients.clients IdealFernet.crypto
           ∅ default_manager "b.txt" "azure" "gcs" None 1700000001 iv0).
  vm_compute. reflexivity.
Defined.





(** X18. Moving an object onto its own location deletes it: the write goes
    to the key that the final delete then removes.  For storage clients where
    a read after a successful delete finds nothing, a move with equal source
    and destination that returns normally leaves no object under that
    name. *)
Theorem move_onto_itself_deletes (SC : Mover.StorageClients) (C : FernetCrypto)
    env m obj_key location roles now iv (w w' : Mover.world) :
  (forall w0 w0',
     Mover.delete_source env obj_key location w0 = (Mover.Done tt, w0') ->
     (Mover.get_source env obj_key location w0').1 = Mover.Done None) ->
  Mover.move_object env m obj_key location location roles now iv w
  = (Mover.Done tt, w') ->
  (Mover.get_source env obj_key location w').1 = Mover.Done None
  /\ exists w1,
       Mover.move_object env m obj_key location location roles now iv w'
       = (Mover.Fail (Mover.FileNotFoundError
                        (obj_key +:+ " not found in " +:+ location)), w1).
Proof.
  intros Hlaw Hmove.
  destruct (move_Done_inv _ _ _ _ _ _ _ _ _ _ Hmove)
    as (data & pt & tok & w1 & w2 & _ & _ & _ & _ & Hdel).
  pose proof (Hlaw _ _ Hdel) as Hgone. split; [done|].
  unfold Mover.move_object, Mover.bind.
  destruct (Mover.get_source env obj_key location w') as [r w1'].
  simpl in Hgone. subst r. by exists w1'.
Qed.

Lemma move_onto_itself_deletes_witness :
  (Mover.get_source (SC := MemoryClients.clients) ∅ "a.txt" "s3"
     MemoryClients.seeded).1 <> Mover.Done None
  /\ (Mover.get_source (SC := MemoryClients.clients) ∅ "a.txt" "s3"
        MemoryClients.moved_onto_itself).1 = Mover.Done None.
Proof.
  split; [vm_compute; discriminate|].
  apply (move_onto_itself_deletes MemoryClients.clients IdealFernet.crypto
           ∅ default_manager "a.txt" "s3" None 1700000001 iv0
           MemoryClients.seeded MemoryClients.moved_onto_itself).
  - intros w0 w0' Hdel.
    change (MemoryClients.delete "s3" (Mover.S3_BUCKET ∅) "a.txt" w0
            = (Mover.Done tt, w0')) in Hdel.
    change ((MemoryClients.get "s3" (Mover.S3_BUCKET ∅) "a.txt" w0').1
            = Mover.Done None).
    unfold MemoryClients.delete in Hdel. injection Hdel as <-.
    unfold MemoryClients.get; simpl. f_equal. apply lookup_delete_eq.
  - vm_compute. reflexivity.
Defined.

(** X19. The default principal can move anything that verifies.  With the
    module's manager, built in any environment, and source and destination
    among the three names, a move without roles never fails on lookup or
    authorization: once the object is read and the cipher accepts it under
    the source key, the run is the write of the re-encrypted plaintext at the
    destination followed by the delete at the source. *)
Theorem default_principal_moves (SC : Mover.StorageClients) (C : FernetCrypto)
    env m obj_key src dst now iv (w w1 : Mover.world) data :
  security_manager env = Ok m ->
  src ∈ Mover.locations ->
  dst ∈ Mover.locations ->
  Mover.get_source env obj_key src w = (Mover.Done (Some data), w1) ->
  exists p_src p_dst,
    AdaptiveSecurityManager._policy_for m src = Ok p_src
    /\ AdaptiveSecurityManager._policy_for m dst = Ok p_dst
    /\ Mover.move_object env m obj_key src dst None now iv w
       = match fernet_decrypt (_LocationPolicy.fernet p_src) data with
         | None =>
             (Mover.Fail (Mover.Exn (EncryptionError
                                       ("failed to decrypt payload from " +:+ src))),
              w1)
         | Some plaintext =>
             Mover.bind
               (Mover.put_destination env obj_key dst
                  (Some (fernet_encrypt (_LocationPolicy.fernet p_dst) now iv
                           plaintext)))
               (fun _ => Mover.delete_source env obj_key src) w1
         end.
Proof.
  intros Hinit Hsrc Hdst Hget.
  destruct (singleton_location _ _ _ Hinit Hsrc) as (ps & Hps & Hns & _ & Hss).
  destruct (singleton_location _ _ _ Hinit Hdst) as (pd & Hpd & _ & _ & Hsd).
  pose proof authorize_system as Hauth.
  exists ps, pd. split_and!; [done | done |].
  unfold Mover.move_object, Mover.roles_or_system, Mover.bind at 1.
  rewrite Hget. cbv beta iota. unfold Mover.bind at 1.
  rewrite (decrypt_authorized _ _ _ _ _ Hps (Hauth _ Hss)).
  destruct (fernet_decrypt _ _) as [pt|];
    [|unfold Mover.lift, Mover.raise; by rewrite Hns].
  unfold Mover.lift at 1, Mover.ret at 1. cbv beta iota.
  unfold Mover.bind at 1.
  by rewrite (encrypt_authorized _ _ _ _ _ _ _ Hpd (Hauth _ Hsd)).
Qed.

Lemma default_principal_moves_witness :
  exists p_src p_dst,
    AdaptiveSecurityManager._policy_for roles_env_manager "s3" = Ok p_src
    /\ AdaptiveSecurityManager._policy_for roles_env_manager "azure" = Ok p_dst
    /\ Mover.move_object (SC := MemoryClients.clients) (C := IdealFernet.crypto)
         roles_env roles_env_manager "a.txt" "s3" "azure" None 1700000001 iv0
         MemoryClients.seeded
       = match fernet_decrypt (FernetCrypto := IdealFernet.crypto)
                 (_LocationPolicy.fernet p_src)
                 (IdealFernet.encrypt
                    (_LocationPolicy.fernet (policy_of default_manager "s3"))
                    1700000000 iv0 hello) with
         | None =>
             (Mover.Fail (Mover.Exn (EncryptionError
                                       ("failed to decrypt payload from " +:+ "s3"))),
              MemoryClients.seeded)
         | Some plaintext =>
             Mover.bind (H := MemoryClients.clients)
               (Mover.put_destination roles_env "a.txt" "azure"
                  (Some (fernet_encrypt (FernetCrypto := IdealFernet.crypto)
                           (_LocationPolicy.fernet p_dst)
                           1700000001 iv0 plaintext)))
               (fun _ => Mover.delete_source roles_env "a.txt" "s3")
               MemoryClients.seeded
         end.
Proof.
  apply (default_principal_moves MemoryClients.clients IdealFernet.crypto
           roles_env roles_env_manager "a.txt" "s3" "azure" 1700000001 iv0
           MemoryClients.seeded MemoryClients.seeded).
  - vm_compute. reflexivity.
  - apply list_elem_of_here.
  - apply list_elem_of_further, list_elem_of_here.
  - vm_compute. reflexivity.
Defined.



(** X21. Tokens are bound to the key, not to the location: in a built
    store, two locations whose policies hold the same key object accept each
    other's tokens for roles authorized at both (the cipher being assumed to
    decrypt its own tokens). *)
Theorem same_key_interoperates (C : FernetCrypto) env defs m l1 l2 p1 p2
    (data : list byte) roles now iv :
  fernet_round_trip C ->
  AdaptiveSecurityManager.__init__ env defs = Ok m ->
  AdaptiveSecurityManager._policy_for m l1 = Ok p1 ->
  AdaptiveSecurityManager._policy_for m l2 = Ok p2 ->
  _LocationPolicy.fernet p1 = _LocationPolicy.fernet p2 ->
  _normalize_roles roles ∩ _LocationPolicy.allowed_roles p1 <> ∅ ->
  _normalize_roles roles ∩ _LocationPolicy.allowed_roles p2 <> ∅ ->
  exists token,
    AdaptiveSecurityManager.encrypt m l1 (Some data) roles now iv
    = Ok (Some token)
    /\ AdaptiveSecurityManager.decrypt m l2 (Some token) roles
       = Ok (Some data).
Proof.
  intros Hrt Hinit H1 H2 Hsame Ha1 Ha2.
  destruct (built_store_policy _ _ _ _ _ Hinit H1) as (_ & Hwf & _).
  apply authorize_Ok in Ha1, Ha2.
  eexists. split.
  - by apply encrypt_authorized.
  - rewrite (decrypt_authorized _ _ _ _ _ H2 Ha2), <- Hsame. by rewrite Hrt.
Qed.

Lemma same_key_interoperates_witness :
  exists token,
    AdaptiveSecurityManager.encrypt (C := IdealFernet.crypto)
      shared_key_manager "azure" (Some hello) None 1700000000 iv0
    = Ok (Some token)
    /\ AdaptiveSecurityManager.decrypt (C := IdealFernet.crypto)
         shared_key_manager "s3" (Some token) None
       = Ok (Some hello).
Proof.
  apply (same_key_interoperates IdealFernet.crypto shared_key_env None
           shared_key_manager "azure" "s3"
           (policy_of shared_key_manager "azure")
           (policy_of shared_key_manager "s3")).
  - exact ideal_round_trip.
  - vm_compute. reflexivity.
  - vm_compute. reflexivity.
  - vm_compute. reflexivity.
  - vm_compute. reflexivity.
  - vm_compute. discriminate.
  - vm_compute. discriminate.
Defined.

Section Frame.

Lemma load_policy_env_agree env env' location config :
  env_agree env env' (location, config) ->
  load_policy env location config = load_policy env' location config.
Proof.
  unfold env_agree; simpl. intros [Hkey Hroles].
  unfold load_policy, getenv_truthy, env_roles_input. rewrite Hkey.
  destruct (Py.truthy (Py.or_else (Config.env_roles config) "")) eqn:Ht.
  - apply truthy_iff in Ht. by rewrite (Hroles Ht).
  - done.
Qed.

Lemma load_policies_env_agree env env' defs policies :
  Forall (env_agree env env') defs ->
  AdaptiveSecurityManager._load_policies env defs policies
  = AdaptiveSecurityManager._load_policies env' defs policies.
Proof.
  intros Hall. revert policies.
  induction Hall as [|[l c] defs Hd _ IH]; intros policies; simpl; [done|].
  rewrite (load_policy_env_agree _ _ _ _ Hd).
  destruct (load_policy env' l c) as [[k p]|e]; simpl; [apply IH | done].
Qed.

End Frame.

(** X22. The constructor reads the environment only at the variables its
    definitions name: two environments that agree on every key-override
    variable and every named role-override variable give the same manager, or
    the same exception. *)
Theorem construction_reads_named_variables env env'
    (definitions : option definitions_t) :
  Forall (env_agree env env')
    (AdaptiveSecurityManager.definitions_or_default definitions) ->
  AdaptiveSecurityManager.__init__ env definitions
  = AdaptiveSecurityManager.__init__ env' definitions.
Proof.
  intros Hall. unfold AdaptiveSecurityManager.__init__.
  by rewrite (load_policies_env_agree _ _ _ _ Hall).
Qed.

Lemma construction_reads_named_variables_witness :
  security_manager ∅ = security_manager busy_env.
Proof.
  apply (construction_reads_named_variables ∅ busy_env None).
  repeat constructor; vm_compute; reflexivity.
Defined.

(** X23. Principal roles are lowercased and trimmed but the allowed roles
    of a policy are compared as they are stored, and default roles are stored
    as written.  So an allowed role that is not already trimmed and
    lowercased is never matched by any principal: authorization succeeds
    exactly when the normalized roles meet the allowed roles that are
    non-empty and in normal form. *)
Theorem unnormalized_roles_are_dead (policy : _LocationPolicy.t)
    (roles : principal_roles_t) :
  (_LocationPolicy.authorize policy roles = Ok tt <->
   _normalize_roles roles ∩ live_roles (_LocationPolicy.allowed_roles policy)
   <> ∅)
  /\ (forall a,
        Py.lower (Py.strip a) <> a -> a ∉ _normalize_roles roles).
Proof.
  split_and!.
  - rewrite authorize_Ok. unfold live_roles. split.
    + intros Hne Hempty.
      apply set_choose_L in Hne as [x [Hx Ha]%elem_of_intersection].
      apply (not_elem_of_empty (C := gset string) x). rewrite <- Hempty.
      apply elem_of_intersection. split; [done|].
      apply elem_of_filter. split; [|done].
      by apply normalize_roles_elem in Hx.
    + intros Hne Hempty.
      apply set_choose_L in Hne as [x [Hx Ha]%elem_of_intersection].
      apply elem_of_filter in Ha as [_ Ha].
      apply (not_elem_of_empty (C := gset string) x). rewrite <- Hempty.
      by apply elem_of_intersection.
  - intros a Ha Hin. by apply normalize_roles_elem in Hin as [_ ?].
Qed.

Lemma unnormalized_roles_are_dead_witness :
  "Admin" ∈ _LocationPolicy.allowed_roles (policy_of capital_manager "vault")
  /\ ("Admin" ∉ _normalize_roles (Some [Some "Admin"]))
  /\ _LocationPolicy.authorize (policy_of capital_manager "vault")
       (Some [Some "Admin"]) <> Ok tt.
Proof.
  destruct (unnormalized_roles_are_dead (policy_of capital_manager "vault")
              (Some [Some "Admin"])) as (Hiff & Hdead).
  split_and!.
  - refine (bool_decide_unpack _ _). vm_compute. exact I.
  - apply Hdead. vm_compute. discriminate.
  - intros Hok. apply Hiff in Hok. apply Hok. vm_compute. reflexivity.
Defined.

(* ===================================================================== *)
(** ** Instances of the statements without premises *)

Lemma construction_succeeds_iff_witness : is_Ok (security_manager busy_env).
Proof.
  apply (construction_succeeds_iff busy_env None).
  repeat constructor; intros Hr%key_rejected_fault; vm_compute in Hr;
    by destruct Hr.
Defined.

Lemma normalize_roles_stable_witness :
  _normalize_roles
    (Some (Some <$> elements (_normalize_roles (Some [Some " Ops"; Some "ops"]))))
  = _normalize_roles (Some [Some " Ops"; Some "ops"])
  /\ _normalize_roles (Some [Some " Ops"; Some "ops"]) = {[ "ops" ]}.
Proof.
  destruct (normalize_roles_stable (Some [Some " Ops"; Some "ops"]))
    as (_ & _ & Hstable).
  split; [exact Hstable | vm_compute; reflexivity].
Defined.

Lemma introspection_agrees_witness :
  AdaptiveSecurityManager.allowed_roles default_manager " S3 "
  = Ok ["analytics"; "engineering"; "system"]
  /\ Sorted String.le ["analytics"; "engineering"; "system"].
Proof.
  destruct (introspection_agrees default_manager " S3 ") as [_ Hroles].
  assert (AdaptiveSecurityManager.allowed_roles default_manager " S3 "
          = Ok ["analytics"; "engineering"; "system"]) as H
    by (vm_compute; reflexivity).
  split; [exact H|]. by destruct (Hroles _ H) as (Hsorted & _).
Defined.

Lemma crypto_outcomes_witness :
  exists policy,
    AdaptiveSecurityManager._policy_for default_manager "gcs" = Ok policy
    /\ _normalize_roles (Some [Some "compliance"])
         ∩ _LocationPolicy.allowed_roles policy <> ∅
    /\ Some (IdealFernet.encrypt
               (_LocationPolicy.fernet (policy_of default_manager "gcs"))
               1700000000 iv0 hello)
       = Some (fernet_encrypt (FernetCrypto := IdealFernet.crypto)
                 (_LocationPolicy.fernet policy) 1700000000 iv0 hello).
Proof.
  destruct (crypto_outcomes IdealFernet.crypto default_manager "gcs" hello
              (Some [Some "compliance"]) 1700000000 iv0) as (Henc & _).
  apply Henc. vm_compute. reflexivity.
Defined.
